(** * cocopy: lowering of Python modules to the Coconut IR, and the package loader

    A shallow embedding of [tools/cocopy/cocopy/lib/compiler.py]:
    the [Transformer] class (statement and expression dispatch, module
    assembly) and the [Loader] class (descriptor resolution with a cache).

    Python exceptions are values of [exn]; a method that may raise returns a
    [result].  The transform context ([self.ctx]) is threaded explicitly
    through the statement handlers, which are the only ones that write it. *)

From Stdlib Require Import ZArith Ascii String List.
From stdpp Require Import gmap strings.

Set Warnings "-register-all".

Local Open Scope string_scope.
Local Open Scope Z_scope.

(** ** Exceptions and results *)

Inductive exn :=
| AssertionError (msg : string)
| AttributeError (obj attr : string)
| NameError (name : string)
| UnboundLocalError (name : string)
| IOError (path : string)
| Exception (msg : string).

Inductive result (A : Type) :=
| Ok (a : A)
| Raise (e : exn).
Arguments Ok {A} a.
Arguments Raise {A} e.

Definition bind {A B} (r : result A) (k : A -> result B) : result B :=
  match r with
  | Ok a => k a
  | Raise e => Raise e
  end.

Declare Scope result_scope.
Delimit Scope result_scope with result.
Notation "'do' x <- r ; k" := (bind r (fun x => k))
  (at level 10, x name, r at level 100, k at level 200) : result_scope.

(** [raise Exception("Not yet implemented: {}".format(type(node).__name__))] *)
Definition not_yet_implemented {A} (kind : string) : result A :=
  Raise (Exception ("Not yet implemented: " ++ kind)).

(** ** The Python syntax tree handed over by the parser ([pythonparser.ast])

    Only the fields the transformer reads are kept on the unsupported node
    kinds: their handlers raise before looking at anything but the class
    name.  Every node carries its source range ([node.loc]). *)

Module py_ast.

(** [loc.line()], [loc.column()], [loc.end().line()], [loc.end().column()] *)
Record Range := mkRange {
  line : Z; column : Z; end_line : Z; end_column : Z
}.

Inductive expr_context := Load | Store | Del | AugLoad | AugStore | Param.

Inductive cmpop := Eq | NotEq | Lt | LtE | Gt | GtE | Is | IsNot | In | NotIn.

(** What the [value] of a [NameConstant] node can be: the object [None],
    [True] or [False], as a parser puts it there, or a string. *)
Inductive constant := PyNone | PyTrue | PyFalse | PyStr (s : string).

Inductive expr :=
| Attribute (value : expr) (attr : string) (ctx : option expr_context) (loc : Range)
| BinOp (loc : Range)
| BoolOp (loc : Range)
| Call (func : expr) (args : list expr) (loc : Range)
| Compare (left : expr) (ops : list cmpop) (comparators : list expr) (loc : Range)
| Dict (loc : Range)
| DictComp (loc : Range)
| Ellipsis (loc : Range)
| GeneratorExp (loc : Range)
| IfExp (test body orelse : expr) (loc : Range)
| Lambda (loc : Range)
| List (loc : Range)
| ListComp (loc : Range)
| Name (id : string) (ctx : option expr_context) (loc : Range)
| NameConstant (value : constant) (loc : Range)
| Num (n : Z) (loc : Range)
| Repr (loc : Range)
| Set_ (loc : Range)
| SetComp (loc : Range)
| Str (s : string) (loc : Range)
| Starred (loc : Range)
| Subscript (loc : Range)
| Tuple (loc : Range)
| UnaryOp (loc : Range)
| Yield (loc : Range)
| YieldFrom (loc : Range).

Definition expr_loc (e : expr) : Range :=
  match e with
  | Attribute _ _ _ l | BinOp l | BoolOp l | Call _ _ l | Compare _ _ _ l
  | Dict l | DictComp l | Ellipsis l | GeneratorExp l | IfExp _ _ _ l
  | Lambda l | List l | ListComp l | Name _ _ l | NameConstant _ l
  | Num _ l | Repr l | Set_ l | SetComp l | Str _ l | Starred l
  | Subscript l | Tuple l | UnaryOp l | Yield l | YieldFrom l => l
  end.

(** An entry of [Import.names]. *)
Record alias := mkAlias { alias_name : string; alias_loc : Range }.

(** An entry of [arguments.args]: the parser's [arg] node, with the name of
    the parameter ([arg.arg]). *)
Record arg := mkArg { arg_arg : string; arg_loc : Range }.

(** [FunctionDef.args]: the [arg] nodes and the range of the list. *)
Record arguments := mkArguments { args_args : list arg; args_loc : Range }.

Inductive stmt :=
| Assert (loc : Range)
| Assign (targets : list expr) (value : expr) (loc : Range)
| AugAssign (loc : Range)
| Break (loc : Range)
| ClassDef (name : string) (loc : Range)
| Continue (loc : Range)
| Delete (loc : Range)
| Exec (loc : Range)
| Expr (value : expr) (loc : Range)
| For (loc : Range)
| FunctionDef (name : string) (args : arguments) (body : list stmt) (loc : Range)
| Global (loc : Range)
| If (test : expr) (body : list stmt) (orelse : list stmt) (loc : Range)
| Import (names : list alias) (loc : Range)
| ImportFrom (loc : Range)
| Nonlocal (loc : Range)
| Pass (loc : Range)
| Print (loc : Range)
| Raise_ (loc : Range)
| Return (value : option expr) (loc : Range)
| Try (loc : Range)
| While (loc : Range)
| With (loc : Range).

Definition stmt_loc (s : stmt) : Range :=
  match s with
  | Assert l | Assign _ _ l | AugAssign l | Break l | ClassDef _ l
  | Continue l | Delete l | Exec l | Expr _ l | For l
  | FunctionDef _ _ _ l | Global l | If _ _ _ l | Import _ l
  | ImportFrom l | Nonlocal l | Pass l | Print l | Raise_ l
  | Return _ l | Try l | While l | With l => l
  end.

(** [py_module.body] *)
Record Module := mkModule { body : list stmt }.

End py_ast.

(** ** The Coconut IR ([cocopy.lib.ast]) *)

Module ast.

Record Position := mkPosition { line : Z; column : Z }.

(** [Location(file, start, end)]; the block handler can pass [end=None]. *)
Record Location := mkLocation {
  file : string; start : Position; end_ : option Position
}.

Record Identifier := mkIdentifier { ident : string; ident_loc : option Location }.
Record Token := mkToken { tok : string; tok_loc : option Location }.
Record TypeToken := mkTypeToken { type_tok : string; type_tok_loc : option Location }.
Record ModuleToken := mkModuleToken { module_tok : string; module_tok_loc : option Location }.

Inductive BinaryOperator :=
| binop_assign | binop_eqeq | binop_noteq
| binop_gt | binop_gteq | binop_lt | binop_lteq.

Inductive Expression :=
| LoadLocationExpression (name : Token) (loc : option Location)
| LoadDynamicExpression (name : Expression) (object : Expression) (loc : option Location)
| BinaryOperatorExpression (left : Expression) (op : BinaryOperator)
                           (right : Expression) (loc : option Location)
| InvokeFunctionExpression (function : Expression) (arguments : list Expression)
                           (loc : option Location)
| ConditionalExpression (condition consequent alternate : Expression)
                        (loc : option Location)
| NullLiteral (loc : option Location)
| BoolLiteral (value : bool) (loc : option Location)
| NumberLiteral (value : Z) (loc : option Location)
| StringLiteral (value : string) (loc : option Location).

Inductive Statement :=
| ExpressionStatement (expression : Expression) (loc : option Location)
| Break (loc : option Location)
| Continue (loc : option Location)
| EmptyStatement (loc : option Location)
| IfStatement (condition : Expression) (consequent : Block)
              (alternate : option Statement) (loc : option Location)
| ReturnStatement (expression : option Expression) (loc : option Location)
with Block :=
| mkBlock (statements : list Statement) (loc : option Location).

(** [stmt.loc] *)
Definition stmt_loc (s : Statement) : option Location :=
  match s with
  | ExpressionStatement _ l | Break l | Continue l | EmptyStatement l
  | IfStatement _ _ _ l | ReturnStatement _ l => l
  end.

Definition statements (b : Block) : list Statement :=
  match b with mkBlock ss _ => ss end.

Definition block_loc (b : Block) : option Location :=
  match b with mkBlock _ l => l end.

(** The identifier [self.ident(arg)] builds for a parameter: it is handed
    the parser's [arg] node, not the name in it, so the node is what the
    identifier holds. *)
Record ArgIdentifier := mkArgIdentifier {
  arg_ident : py_ast.arg; arg_ident_loc : option Location
}.

Record LocalVariable := mkLocalVariable {
  var_name : ArgIdentifier; var_type : TypeToken; var_loc : option Location
}.

(** Modelled from the spec: the member classes of [cocopy.lib.ast], which
    is not part of the sources.  A ModuleProperty carries a name and a type
    marker; a ModuleMethod carries a name, an ordered parameter list, a
    return type marker and a body block.  The constructor is called both
    as [ModuleMethod(name, body=...)] and as
    [ModuleMethod(name, parameters, return_type, loc=...)], so every field
    but the name is optional and absent when not passed. *)
Inductive Member :=
| ModuleProperty (name : Identifier) (type : TypeToken)
| ModuleMethod (name : Identifier) (parameters : option (list LocalVariable))
               (return_type : option TypeToken) (body : option Block)
               (loc : option Location).

(** [member.name.ident] *)
Definition member_name (m : Member) : string :=
  match m with
  | ModuleProperty n _ | ModuleMethod n _ _ _ _ => ident n
  end.

Record Export := mkExport { export_name : Identifier; export_token : Token }.

Record Module := mkModule {
  module_name : Identifier;
  imports : list ModuleToken;
  exports : gmap string Export;
  members : gmap string Member
}.

End ast.

(** ** The package record ([cocopy.lib.pack]) *)

Module pack.

(** Modelled from the spec: [pack.Package], which is not part of the
    sources: identity (name), optional descriptive metadata (description,
    author, website, license), a declared dependency list and a mapping
    of module name to IR module. *)
Record Package := mkPackage {
  name : string;
  description : option string;
  author : option string;
  website : option string;
  license : option string;
  dependencies : option (list string);
  modules : gmap string ast.Module
}.

(** What an unmarshaler returns: the object [d] on which [loadCore] calls
    [d.get(...)], one optional entry per key it reads. *)
Record Descriptor := mkDescriptor {
  d_name : option string;
  d_description : option string;
  d_author : option string;
  d_website : option string;
  d_license : option string;
  d_dependencies : option (list string)
}.

End pack.

(** ** Transform state *)

(** [class ModuleSpec] *)
Record ModuleSpec := mkModuleSpec {
  spec_name : string;
  spec_file : string;
  py_module : py_ast.Module
}.

(** [class Context]: the module being transformed, the accumulated globals
    and the function we are inside of ([None] at top level). *)
Record Context := mkContext {
  mod_ : ModuleSpec;
  globals : gset string;
  func : option py_ast.stmt
}.

(** [Context(mod)] *)
Definition new_Context (m : ModuleSpec) : Context :=
  {| mod_ := m; globals := ∅; func := None |}.

(** Modelled from the spec: the constants of [cocopy.lib.tokens], which is
    not part of the sources: the token delimiter, the dynamic type marker,
    the well-known init and entrypoint member names and the delimiter of
    module paths. *)
Record Tokens := mkTokens {
  delim : string;
  type_dynamic : string;
  func_init : string;
  func_entrypoint : string;
  name_delim : string
}.

(** A concrete choice of the constants, for the examples. *)
Definition coconut_tokens : Tokens :=
  {| delim := ":"; type_dynamic := "dynamic"; func_init := ".init";
     func_entrypoint := ".main"; name_delim := "/" |}.

(** Python truthiness of a string: [if file]. *)
Definition truthy (s : string) : bool :=
  match s with EmptyString => false | String _ _ => true end.

(** ** class Transformer: utility functions *)

Section Transformer.

Variable tokens : Tokens.

(** [loc_from(node)]: [None] for no node, else the node's range with the
    columns made 1-based, in the file of the module being transformed. *)
Definition loc_from (ctx : Context) (node : option py_ast.Range) : option ast.Location :=
  match node with
  | Some loc =>
      let start := ast.mkPosition (py_ast.line loc) (py_ast.column loc + 1) in
      let end_ := ast.mkPosition (py_ast.end_line loc) (py_ast.end_column loc + 1) in
      Some (ast.mkLocation (spec_file (mod_ ctx)) start (Some end_))
  | None => None
  end.

Definition ident (ctx : Context) (name : string) (node : option py_ast.Range) : ast.Identifier :=
  ast.mkIdentifier name (loc_from ctx node).

(** [ident] again, on an [arg] node in the place of the name. *)
Definition ident_arg (ctx : Context) (name : py_ast.arg) (node : option py_ast.Range)
  : ast.ArgIdentifier :=
  ast.mkArgIdentifier name (loc_from ctx node).

Definition type_token (ctx : Context) (tok : string) (node : option py_ast.Range) : ast.TypeToken :=
  ast.mkTypeToken tok (loc_from ctx node).

(** [self.pkg.name + tokens.delim + self.ctx.mod.name] *)
Definition current_module_token (pkg : pack.Package) (ctx : Context) : string :=
  pack.name pkg ++ delim tokens ++ spec_name (mod_ ctx).

(** ** Expressions

    Each handler takes the dispatcher it calls back ([self.transform_expr])
    as [rec]; [transform_expr] ties the knot.  No expression handler
    writes the context. *)

Section ExprHandlers.

Variable ctx : Context.
Variable rec : py_ast.expr -> result ast.Expression.

Definition transform_Attribute value attr (c : option py_ast.expr_context) loc
  : result ast.Expression :=
  match c with
  | Some _ => Raise (AssertionError "")
  | None =>
      (do obj <- rec value;
       Ok (ast.LoadDynamicExpression (ast.StringLiteral attr None) obj
             (loc_from ctx (Some loc))))%result
  end.

(** [args = list(); for arg in args: args.append(self.transform_expr(arg))]:
    the loop runs over the list it has just created, which is empty, and
    not over [node.args]; its body is never entered. *)
Definition transform_Call func (node_args : list py_ast.expr) loc
  : result ast.Expression :=
  (do func' <- rec func;
   let args : list ast.Expression := [] in
   Ok (ast.InvokeFunctionExpression func' args (loc_from ctx (Some loc))))%result.

Definition transform_Compare left_ (ops : list py_ast.cmpop)
           (comparators : list py_ast.expr) loc : result ast.Expression :=
  match ops, comparators with
  | [pyop], [comparator] =>
      (do lhs <- rec left_;
       do op <- match pyop with
                | py_ast.Eq | py_ast.Is => Ok ast.binop_eqeq
                | py_ast.NotEq | py_ast.IsNot => Ok ast.binop_noteq
                | py_ast.Gt => Ok ast.binop_gt
                | py_ast.GtE => Ok ast.binop_gteq
                | py_ast.Lt => Ok ast.binop_lt
                | py_ast.LtE => Ok ast.binop_lteq
                | py_ast.In => Raise (AssertionError "Compare operator In is not supported")
                | py_ast.NotIn => Raise (AssertionError "Compare operator NotIn is not supported")
                end;
       do rhs <- rec comparator;
       Ok (ast.BinaryOperatorExpression lhs op rhs (loc_from ctx (Some loc))))%result
  | _, _ => Raise (AssertionError "Multi-comparison operators not yet supported")
  end.

Definition transform_IfExp test body orelse loc : result ast.Expression :=
  (do cond <- rec test;
   do cons <- rec body;
   do altr <- rec orelse;
   Ok (ast.ConditionalExpression cond cons altr (loc_from ctx (Some loc))))%result.

Definition transform_Name id (c : option py_ast.expr_context) loc
  : result ast.Expression :=
  match c with
  | Some _ => Raise (AssertionError "")
  | None => Ok (ast.LoadLocationExpression (ast.mkToken id None) (loc_from ctx (Some loc)))
  end.

(** [node.value == "..."]: an object that is no string equals none. *)
Definition eq_str (value : py_ast.constant) (s : string) : bool :=
  match value with
  | py_ast.PyStr s' => String.eqb s' s
  | _ => false
  end.

(** ["{}".format(node.value)] *)
Definition format_constant (value : py_ast.constant) : string :=
  match value with
  | py_ast.PyNone => "None"
  | py_ast.PyTrue => "True"
  | py_ast.PyFalse => "False"
  | py_ast.PyStr s => s
  end.

Definition transform_NameConstant (value : py_ast.constant) loc : result ast.Expression :=
  let loc := loc_from ctx (Some loc) in
  if eq_str value "None" then Ok (ast.NullLiteral loc)
  else if eq_str value "True" then Ok (ast.BoolLiteral true loc)
  else if eq_str value "False" then Ok (ast.BoolLiteral false loc)
  else Raise (AssertionError ("Unexpected name constant value: '"
                              ++ format_constant value ++ "'")).

(** [ast.NumberLiteral(self.value, ...)]: the transformer has no
    attribute [value]; the node's [n] is not read. *)
Definition transform_Num (n : Z) (loc : py_ast.Range) : result ast.Expression :=
  Raise (AttributeError "Transformer" "value").

Definition transform_Str s loc : result ast.Expression :=
  Ok (ast.StringLiteral s (loc_from ctx (Some loc))).

End ExprHandlers.

Fixpoint transform_expr (ctx : Context) (node : py_ast.expr) {struct node}
  : result ast.Expression :=
  let rec := transform_expr ctx in
  match node with
  | py_ast.Attribute value attr c loc => transform_Attribute ctx rec value attr c loc
  | py_ast.BinOp _ => not_yet_implemented "BinOp"
  | py_ast.BoolOp _ => not_yet_implemented "BoolOp"
  | py_ast.Call func args loc => transform_Call ctx rec func args loc
  | py_ast.Compare left_ ops comparators loc =>
      transform_Compare ctx rec left_ ops comparators loc
  | py_ast.Dict _ => not_yet_implemented "Dict"
  | py_ast.DictComp _ => not_yet_implemented "DictComp"
  | py_ast.Ellipsis _ => not_yet_implemented "Ellipsis"
  | py_ast.GeneratorExp _ => not_yet_implemented "GeneratorExp"
  | py_ast.IfExp test body orelse loc => transform_IfExp ctx rec test body orelse loc
  | py_ast.Lambda _ => not_yet_implemented "Lambda"
  | py_ast.List _ => not_yet_implemented "List"
  | py_ast.ListComp _ => not_yet_implemented "ListComp"
  | py_ast.Name id c loc => transform_Name ctx id c loc
  | py_ast.NameConstant value loc => transform_NameConstant ctx value loc
  | py_ast.Num n loc => transform_Num n loc
  | py_ast.Repr _ => not_yet_implemented "Repr"
  | py_ast.Set_ _ => not_yet_implemented "Set"
  | py_ast.SetComp _ => not_yet_implemented "SetComp"
  | py_ast.Str s loc => transform_Str ctx s loc
  | py_ast.Starred _ => not_yet_implemented "Starred"
  | py_ast.Subscript _ => not_yet_implemented "Subscript"
  | py_ast.Tuple _ => not_yet_implemented "Tuple"
  | py_ast.UnaryOp _ => not_yet_implemented "UnaryOp"
  | py_ast.Yield _ => not_yet_implemented "Yield"
  | py_ast.YieldFrom _ => not_yet_implemented "YieldFrom"
  end.

(** ** Statements

    A statement handler runs in the transform context and may write it:
    [M A] is the type of such computations.  The context is kept when a
    handler raises, as the [finally] clauses can observe it. *)

Definition M (A : Type) : Type := Context -> Context * result A.

Definition ret {A} (a : A) : M A := fun ctx => (ctx, Ok a).
Definition raise {A} (e : exn) : M A := fun ctx => (ctx, Raise e).
Definition bindM {A B} (m : M A) (k : A -> M B) : M B :=
  fun ctx =>
    match m ctx with
    | (ctx', Ok a) => k a ctx'
    | (ctx', Raise e) => (ctx', Raise e)
    end.
(** An expression handler, which only reads the context. *)
Definition expr_in {A} (f : Context -> result A) : M A := fun ctx => (ctx, f ctx).
Definition get_ctx : M Context := fun ctx => (ctx, Ok ctx).
Definition put_ctx (ctx' : Context) : M unit := fun _ => (ctx', Ok tt).

Notation "'let*' x := m 'in' k" := (bindM m (fun x => k))
  (at level 10, x name, m at level 100, k at level 200).

(** [stmts = list(); for node in nodes: stmts.append(f(node))] *)
Definition for_each {A B} (f : A -> M B) : list A -> M (list B) :=
  fix go (nodes : list A) : M (list B) :=
    match nodes with
    | [] => ret []
    | node :: nodes' =>
        let* s := f node in
        let* ss := go nodes' in
        ret (s :: ss)
    end.

(** What [track_assign] is handed: any Python object, here either a node
    of the source tree or a node of the IR. *)
Inductive pyobj :=
| PyNode (node : py_ast.expr)
| IRNode (node : ast.Expression).

(** [isinstance(lhs, py_ast.Name) and self.ctx.func == None] *)
Definition track_assign (lhs : pyobj) : M unit :=
  fun ctx =>
    match lhs, func ctx with
    | PyNode (py_ast.Name id _ _), None =>
        (mkContext (mod_ ctx) (globals ctx ∪ {[ id ]}) (func ctx), Ok tt)
    | _, _ => (ctx, Ok tt)
    end.

(** The location of a block, from its statements
    ([transform_block_stmts], after the loop). *)
Definition propagate_loc (stmts : list ast.Statement) : result (option ast.Location) :=
  match stmts with
  | [] => Ok None
  | first :: _ =>
      let firstloc := ast.stmt_loc first in
      let lastloc := ast.stmt_loc (List.last stmts first) in
      let '(file, start) :=
        match firstloc with
        | Some l => (Some (ast.file l), Some (ast.start l))
        | None => (None, None)
        end in
      (do fse <- match lastloc with
                 | Some l =>
                     match firstloc with
                     | None =>
                         (* file = lastloc.file; start = loastloc.start *)
                         Raise (NameError "loastloc")
                     | Some _ => Ok (file, start, ast.end_ l)
                     end
                 | None => Ok (file, start, None)
                 end;
       let '(file, start, end_) := fse in
       match file, start with
       | Some f, Some s =>
           if truthy f then Ok (Some (ast.mkLocation f s end_)) else Ok None
       | _, _ => Ok None
       end)%result
  end.

Section StmtHandlers.

Variable rec : py_ast.stmt -> M ast.Statement.

Definition transform_block_stmts (nodes : list py_ast.stmt) : M ast.Block :=
  let* stmts := for_each rec nodes in
  let* loc := expr_in (fun _ => propagate_loc stmts) in
  ret (ast.mkBlock stmts loc).

Definition transform_Assign (targets : list py_ast.expr) (value : py_ast.expr)
           (loc : py_ast.Range) : M ast.Statement :=
  match targets with
  | [target] =>
      let* lhs := expr_in (fun ctx => transform_expr ctx target) in
      let* _ := track_assign (IRNode lhs) in
      let* rhs := expr_in (fun ctx => transform_expr ctx value) in
      let* assgop := expr_in (fun ctx =>
        Ok (ast.BinaryOperatorExpression lhs ast.binop_assign rhs
              (loc_from ctx (Some loc)))) in
      ret (ast.ExpressionStatement assgop None)
  | _ => raise (AssertionError "TODO: multi-assignments not yet supported")
  end.

Definition transform_Break (loc : py_ast.Range) : M ast.Statement :=
  expr_in (fun ctx => Ok (ast.Break (loc_from ctx (Some loc)))).

Definition transform_Continue (loc : py_ast.Range) : M ast.Statement :=
  expr_in (fun ctx => Ok (ast.Continue (loc_from ctx (Some loc)))).

Definition transform_Expr (value : py_ast.expr) (loc : py_ast.Range) : M ast.Statement :=
  let* expr := expr_in (fun ctx => transform_expr ctx value) in
  expr_in (fun ctx => Ok (ast.ExpressionStatement expr (loc_from ctx (Some loc)))).

(** [alt = self.transform_stmt(node.orelse)]: the dispatcher is handed
    the list of the else branch, which is no statement node. *)
Definition transform_If (test : py_ast.expr) (body orelse : list py_ast.stmt)
           (loc : py_ast.Range) : M ast.Statement :=
  let* cond := expr_in (fun ctx => transform_expr ctx test) in
  let* cons := transform_block_stmts body in
  let* alt := match orelse with
              | [] => ret None
              | _ :: _ => raise (AssertionError "Unrecognized statement node: list")
              end in
  expr_in (fun ctx => Ok (ast.IfStatement cond cons alt (loc_from ctx (Some loc)))).

Definition transform_Pass (loc : py_ast.Range) : M ast.Statement :=
  expr_in (fun ctx => Ok (ast.EmptyStatement (loc_from ctx (Some loc)))).

(** [expr] is bound only when [node.value] is there. *)
Definition transform_Return (value : option py_ast.expr) (loc : py_ast.Range)
  : M ast.Statement :=
  match value with
  | Some v =>
      let* expr := expr_in (fun ctx => transform_expr ctx v) in
      expr_in (fun ctx => Ok (ast.ReturnStatement (Some expr) (loc_from ctx (Some loc))))
  | None => raise (UnboundLocalError "expr")
  end.

End StmtHandlers.

Fixpoint transform_stmt (node : py_ast.stmt) {struct node} : M ast.Statement :=
  match node with
  | py_ast.Assert _ => expr_in (fun _ => not_yet_implemented "Assert")
  | py_ast.Assign targets value loc => transform_Assign targets value loc
  | py_ast.AugAssign _ => expr_in (fun _ => not_yet_implemented "AugAssign")
  | py_ast.Break loc => transform_Break loc
  | py_ast.ClassDef _ _ =>
      raise (AssertionError "TODO: classes in non-top-level positions not yet supported")
  | py_ast.Continue loc => transform_Continue loc
  | py_ast.Delete _ => expr_in (fun _ => not_yet_implemented "Delete")
  | py_ast.Exec _ => expr_in (fun _ => not_yet_implemented "Exec")
  | py_ast.Expr value loc => transform_Expr value loc
  | py_ast.For _ => expr_in (fun _ => not_yet_implemented "For")
  | py_ast.FunctionDef _ _ _ _ =>
      raise (AssertionError "TODO: functions in non-top-level positions not yet supported")
  | py_ast.Global _ => expr_in (fun _ => not_yet_implemented "Global")
  | py_ast.If test body orelse loc => transform_If transform_stmt test body orelse loc
  | py_ast.Import _ _ =>
      raise (AssertionError "TODO: imports in non-top-level positions not yet supported")
  | py_ast.ImportFrom _ =>
      raise (AssertionError "TODO: imports in non-top-level positions not yet supported")
  | py_ast.Nonlocal _ => expr_in (fun _ => not_yet_implemented "Nonlocal")
  | py_ast.Pass loc => transform_Pass loc
  | py_ast.Print _ => expr_in (fun _ => not_yet_implemented "Print")
  | py_ast.Raise_ _ => expr_in (fun _ => not_yet_implemented "Raise")
  | py_ast.Return value loc => transform_Return value loc
  | py_ast.Try _ => expr_in (fun _ => not_yet_implemented "Try")
  | py_ast.While _ => expr_in (fun _ => not_yet_implemented "While")
  | py_ast.With _ => expr_in (fun _ => not_yet_implemented "With")
  end.

(** ** Definitions *)

(** [try: self.ctx.func = node ... finally: self.ctx.func = oldfunc].
    The block of the body is built and then not passed on. *)
Definition transform_FunctionDef (name : string) (args : py_ast.arguments)
           (body : list py_ast.stmt) (loc : py_ast.Range) : M ast.Member :=
  fun ctx =>
    let oldfunc := func ctx in
    let node := py_ast.FunctionDef name args body loc in
    let '(ctx', r) :=
      (let* id := expr_in (fun ctx => Ok (ident ctx name None)) in
       let* args := expr_in (fun ctx =>
         Ok (map (fun arg =>
                    ast.mkLocalVariable (ident_arg ctx arg None)
                      (type_token ctx (type_dynamic tokens) None)
                      (loc_from ctx (Some (py_ast.args_loc args))))
                 (py_ast.args_args args))) in
       let* body := transform_block_stmts transform_stmt body in
       expr_in (fun ctx =>
         Ok (ast.ModuleMethod id (Some args)
               (Some (type_token ctx (type_dynamic tokens) None)) None
               (loc_from ctx (Some loc)))))
        (mkContext (mod_ ctx) (globals ctx) (Some node)) in
    (mkContext (mod_ ctx') (globals ctx') oldfunc, r).

Definition transform_ClassDef (name : string) (loc : py_ast.Range) : M ast.Member :=
  expr_in (fun _ => not_yet_implemented "ClassDef").

(** [name.replace(".", tokens.name_delim)] *)
Fixpoint replace_dots (s : string) : string :=
  match s with
  | EmptyString => EmptyString
  | String c s' =>
      if Ascii.eqb c "."%char then name_delim tokens ++ replace_dots s'
      else String c (replace_dots s')
  end.

(** The tokens of one import clause.  The source collects them in a set of
    token objects; they are kept here in the order of the clause. *)
Definition transform_Import (names : list py_ast.alias) : M (list ast.ModuleToken) :=
  expr_in (fun ctx =>
    Ok (map (fun namenode =>
               ast.mkModuleToken (replace_dots (py_ast.alias_name namenode))
                 (loc_from ctx (Some (py_ast.alias_loc namenode))))
            names)).

(** The loop of [transform_Module] over the top-level statements. *)
Fixpoint transform_toplevel (body : list py_ast.stmt)
         (members : gmap string ast.Member) (initstmts : list ast.Statement)
         (imports : list ast.ModuleToken)
  : M (gmap string ast.Member * list ast.Statement * list ast.ModuleToken) :=
  match body with
  | [] => ret (members, initstmts, imports)
  | stmt :: body' =>
      match stmt with
      | py_ast.FunctionDef name args fbody loc =>
          let* func := transform_FunctionDef name args fbody loc in
          transform_toplevel body' (<[ast.member_name func := func]> members)
            initstmts imports
      | py_ast.ClassDef name loc =>
          let* clazz := transform_ClassDef name loc in
          transform_toplevel body' (<[ast.member_name clazz := clazz]> members)
            initstmts imports
      | py_ast.Import names _ =>
          let* imps := transform_Import names in
          transform_toplevel body' members initstmts (imports ++ imps)
      | _ =>
          let* initstmt := transform_stmt stmt in
          transform_toplevel body' members (initstmts ++ [initstmt]) imports
      end
  end.

(** [for propname in self.ctx.globals: assert propname not in members; ...] *)
Fixpoint add_properties (ctx : Context) (propnames : list string)
         (members : gmap string ast.Member) : result (gmap string ast.Member) :=
  match propnames with
  | [] => Ok members
  | propname :: rest =>
      match members !! propname with
      | Some _ =>
          Raise (AssertionError ("Module property '" ++ propname
                                 ++ "' unexpectedly clashes with a prior declaration"))
      | None =>
          add_properties ctx rest
            (<[propname := ast.ModuleProperty (ident ctx propname None)
                             (type_token ctx (type_dynamic tokens) None)]> members)
      end
  end.

Definition var_modname : string := "__name__".

(** [__name__ = "__main__"], the first statement of every initializer. *)
Definition modname_init : ast.Statement :=
  ast.ExpressionStatement
    (ast.BinaryOperatorExpression
       (ast.LoadLocationExpression (ast.mkToken var_modname None) None)
       ast.binop_assign
       (ast.StringLiteral "__main__" None) None)
    None.

(** The loop [for name in members] that builds the exports binds [name]
    anew: when [ast.Module] is built, [name] is the key the loop visited
    last, not the name handed in ([members] is never empty).  The order in
    which a dict is visited is not fixed by the language; the keys are
    taken here in the order of [map_to_list]. *)
Definition transform_Module (pkg : pack.Package) (name : string)
           (node : py_ast.Module) : M ast.Module :=
  let* ctx0 := get_ctx in
  let members : gmap string ast.Member :=
    {[ var_modname := ast.ModuleProperty (ident ctx0 var_modname None)
                        (type_token ctx0 (type_dynamic tokens) None) ]} in
  let initstmts := [modname_init] in
  let* r := transform_toplevel (py_ast.body node) members initstmts [] in
  let '(members, initstmts, imports) := r in
  let* ctx := get_ctx in
  let members :=
    if (0 <? length initstmts)%nat
    then <[func_init tokens :=
             ast.ModuleMethod (ident ctx (func_init tokens) None) None None
               (Some (ast.mkBlock initstmts None)) None]> members
    else members in
  let members :=
    <[func_entrypoint tokens :=
        ast.ModuleMethod (ident ctx (func_entrypoint tokens) None) None None
          (Some (ast.mkBlock [] None)) None]> members in
  let* members := expr_in (fun ctx =>
    add_properties ctx (elements (globals ctx)) members) in
  let modtok := current_module_token pkg ctx in
  let exports : gmap string ast.Export :=
    map_imap (fun name _ =>
                Some (ast.mkExport (ident ctx name None)
                        (ast.mkToken (modtok ++ delim tokens ++ name) None)))
             members in
  let name := List.last (map fst (map_to_list members)) name in
  ret (ast.mkModule (ident ctx name None) imports exports members).

(** [class Transformer]: the package being transformed and the context of
    the current pass. *)
Record Transformer := mkTransformer {
  pkg : pack.Package;
  ctx : option Context
}.

Definition set_modules (p : pack.Package) (ms : gmap string ast.Module) : pack.Package :=
  pack.mkPackage (pack.name p) (pack.description p) (pack.author p)
    (pack.website p) (pack.license p) (pack.dependencies p) ms.

(** The loop of [transform]; the package is updated in place, so what was
    inserted before a failure stays. *)
Fixpoint transform_modules (modules : list ModuleSpec) (p : pack.Package)
  : pack.Package * result unit :=
  match modules with
  | [] => (p, Ok tt)
  | module :: modules' =>
      match transform_Module p (spec_name module) (py_module module)
              (new_Context module) with
      | (_, Ok m) =>
          match pack.modules p !! spec_name module with
          | Some _ =>
              (p, Raise (AssertionError
                           ("Module " ++ spec_name module ++ " already exists")))
          | None =>
              transform_modules modules'
                (set_modules p (<[spec_name module := m]> (pack.modules p)))
          end
      | (_, Raise e) => (p, Raise e)
      end
  end.

(** [transform(modules)]: [self.ctx] is restored on every exit. *)
Definition transform (modules : list ModuleSpec) (self : Transformer)
  : Transformer * result pack.Package :=
  let oldctx := ctx self in
  let '(p, r) := transform_modules modules (pkg self) in
  (mkTransformer p oldctx,
   match r with Ok _ => Ok p | Raise e => Raise e end).

End Transformer.

(** ** Paths ([os.path] on a POSIX system) *)

Module posixpath.

Definition startswith_sep (s : string) : bool :=
  match s with
  | String c _ => Ascii.eqb c "/"%char
  | EmptyString => false
  end.

Fixpoint endswith_sep (s : string) : bool :=
  match s with
  | EmptyString => false
  | String c EmptyString => Ascii.eqb c "/"%char
  | String _ s' => endswith_sep s'
  end.

(** [join(a, b)] *)
Definition join (a b : string) : string :=
  if startswith_sep b then b
  else if negb (truthy a) || endswith_sep a then a ++ b
  else a ++ "/" ++ b.

(** [path.split('/')] *)
Fixpoint split (s : string) : list string :=
  match s with
  | EmptyString => [EmptyString]
  | String c s' =>
      if Ascii.eqb c "/"%char then EmptyString :: split s'
      else match split s' with
           | comp :: comps => String c comp :: comps
           | [] => [String c EmptyString]
           end
  end.

(** The loop of [normpath] over the components; [new_comps] is kept with
    its last element first. *)
Fixpoint collapse (initial_slashes : bool) (comps new_comps : list string) : list string :=
  match comps with
  | [] => new_comps
  | comp :: comps' =>
      if String.eqb comp "" || String.eqb comp "." then
        collapse initial_slashes comps' new_comps
      else if negb (String.eqb comp "..")
              || (negb initial_slashes && match new_comps with [] => true | _ => false end)
              || match new_comps with c :: _ => String.eqb c ".." | [] => false end
      then collapse initial_slashes comps' (comp :: new_comps)
      else collapse initial_slashes comps' (List.tl new_comps)
  end.

(** [normpath(path)] *)
Definition normpath (path : string) : string :=
  if negb (truthy path) then "."
  else
    let initial_slashes : nat :=
      match path with
      | String "/" (String "/" (String "/" _)) => 1
      | String "/" (String "/" _) => 2
      | String "/" _ => 1
      | _ => 0
      end%nat in
    let comps := rev (collapse (0 <? initial_slashes)%nat (split path) []) in
    let path := String.concat "/" comps in
    let path := String.concat "" (repeat "/" initial_slashes) ++ path in
    if truthy path then path else ".".

End posixpath.

(** ** class Loader *)

(** What a call of [loadCore] does to the outside, in order. *)
Inductive event :=
| CacheGet (pkgpath : string)     (* self.cache.get(pkgpath) *)
| OpenFailed (pkgpath : string)   (* open(pkgpath) raised IOError *)
| ReadFile (pkgpath : string)     (* open(pkgpath) and metadata.read() *)
| Unmarshal (pkgpath : string) (d : result pack.Descriptor).
                                  (* pack.unmarshalers[ext](raw), with what it gave *)

Record Loader := mkLoader { cache : gmap string pack.Package }.

(** [Loader()] *)
Definition new_Loader : Loader := {| cache := ∅ |}.

Definition missing_name (pkgpath : string) : exn :=
  Exception ("Missing name in package '" ++ pkgpath ++ "'").

Definition no_package_found (root : string) : exn :=
  Exception ("No package found at root path '" ++ root ++ "'").

Section Loader.

(** The file system: the contents [open(path).read()] gives, [None] where
    [open] raises [IOError]. *)
Variable fs : string -> option string.

(** [pack.unmarshalers]: extension and codec, in the registry's order. *)
Variable unmarshalers : list (string * (string -> result pack.Descriptor)).

(** The descriptor base names of [cocopy.lib.pack]. *)
Variables coconut_proj_base coconut_project_base coconut_package_base : string.

(** How one pass through the body of the innermost loop ends. *)
Inductive probed :=
| Hit (p : pack.Package)                       (* return pkg *)
| Loaded (p : pack.Package) (pkgpath : string) (* break, with pkg set *)
| Absent                                       (* except IOError: pass *)
| Failed (e : exn).

(** The body of [for ext in pack.unmarshalers]. *)
Definition probe (self : Loader) (pkgpath : string)
           (unmarshal : string -> result pack.Descriptor) : list event * probed :=
  match cache self !! pkgpath with
  | Some p => ([CacheGet pkgpath], Hit p)
  | None =>
      match fs pkgpath with
      | None => ([CacheGet pkgpath; OpenFailed pkgpath], Absent)
      | Some raw =>
          let evs := [CacheGet pkgpath; ReadFile pkgpath;
                      Unmarshal pkgpath (unmarshal raw)] in
          match unmarshal raw with
          | Raise (IOError _) => (evs, Absent)
          | Raise e => (evs, Failed e)
          | Ok d =>
              match pack.d_name d with
              | Some n =>
                  if truthy n then
                    (evs, Loaded (pack.mkPackage n (pack.d_description d)
                                    (pack.d_author d) (pack.d_website d)
                                    (pack.d_license d) (pack.d_dependencies d) ∅)
                                 pkgpath)
                  else (evs, Failed (missing_name pkgpath))
              | None => (evs, Failed (missing_name pkgpath))
              end
          end
      end
  end.

(** [for ext in pack.unmarshalers: pkgpath = base + ext; ...] *)
Fixpoint probe_exts (self : Loader) (base : string)
         (exts : list (string * (string -> result pack.Descriptor)))
  : list event * probed :=
  match exts with
  | [] => ([], Absent)
  | (ext, unmarshal) :: exts' =>
      match probe self (base ++ ext) unmarshal with
      | (evs, Absent) =>
          let '(evs', r) := probe_exts self base exts' in ((evs ++ evs')%list, r)
      | done => done
      end
  end.

(** [for filebase in filebases: base = path.join(search, filebase); ...].
    The second component is [base] as the loop leaves it, [None] when it
    was never bound. *)
Fixpoint probe_bases (self : Loader) (search : string) (filebases : list string)
         (base : option string) : list event * option string * probed :=
  match filebases with
  | [] => ([], base, Absent)
  | filebase :: filebases' =>
      let base := posixpath.join search filebase in
      match probe_exts self base unmarshalers with
      | (evs, Absent) =>
          let '(evs', b, r) := probe_bases self search filebases' (Some base) in
          ((evs ++ evs')%list, b, r)
      | (evs, r) => (evs, Some base, r)
      end
  end.

(** [while not pkg: ...] and what follows it.  [fuel] bounds the number of
    iterations; the result is [None] when they do not suffice. *)
Fixpoint loadCore_from (fuel : nat) (self : Loader) (root : string)
         (filebases : list string) (upwards : bool) (search : string)
  : list event * option (Loader * result pack.Package) :=
  match fuel with
  | O => ([], None)
  | S fuel' =>
      match probe_bases self search filebases None with
      | (evs, _, Hit p) => (evs, Some (self, Ok p))
      | (evs, _, Failed e) => (evs, Some (self, Raise e))
      | (evs, _, Loaded p pkgpath) =>
          (evs, Some (mkLoader (<[pkgpath := p]> (cache self)), Ok p))
      | (evs, base, Absent) =>
          if upwards then
            match base with
            | None => (evs, Some (self, Raise (UnboundLocalError "base")))
            | Some base =>
                if String.eqb base "/" then
                  (evs, Some (self, Raise (no_package_found root)))
                else
                  let '(evs', r) :=
                    loadCore_from fuel' self root filebases upwards
                      (posixpath.normpath (posixpath.join search "..")) in
                  ((evs ++ evs')%list, r)
            end
          else (evs, Some (self, Raise (no_package_found root)))
      end
  end.

Definition loadCore (fuel : nat) (self : Loader) (root : string)
           (filebases : list string) (upwards : bool)
  : list event * option (Loader * result pack.Package) :=
  loadCore_from fuel self root filebases upwards (posixpath.normpath root).

Definition loadProject (fuel : nat) (self : Loader) (root : string) :=
  loadCore fuel self root [coconut_proj_base] false.

Definition loadDependency (fuel : nat) (self : Loader) (root : string) :=
  loadCore fuel self root [coconut_project_base; coconut_package_base] true.

End Loader.

(** * Sample inputs *)

(** Inputs used by the examples below. *)
Module Samples.

Definition at_ (line col end_col : Z) : py_ast.Range :=
  py_ast.mkRange line col line end_col.

Definition the_pkg : pack.Package :=
  pack.mkPackage "pkg" None None None None None ∅.

Definition spec_of (body : list py_ast.stmt) : ModuleSpec :=
  mkModuleSpec "m" "m.py" (py_ast.mkModule body).

Definition ctx_of (body : list py_ast.stmt) : Context := new_Context (spec_of body).

(** [f(x)] *)
Definition call_f_x : py_ast.expr :=
  py_ast.Call (py_ast.Name "f" None (at_ 1 0 1))
    [py_ast.Name "x" None (at_ 1 2 3)] (at_ 1 0 4).

(** [def f(a): return a] *)
Definition return_a : py_ast.stmt :=
  py_ast.Return (Some (py_ast.Name "a" None (at_ 2 11 12))) (at_ 2 4 12).
Definition arg_a : py_ast.arg := py_ast.mkArg "a" (at_ 1 6 7).
Definition def_f_args : py_ast.arguments := py_ast.mkArguments [arg_a] (at_ 1 6 7).
Definition def_f : py_ast.stmt :=
  py_ast.FunctionDef "f" def_f_args [return_a] (at_ 1 0 12).

(** The parameters [(a, b)] of a definition on line 3. *)
Definition args_a_b : py_ast.arguments :=
  py_ast.mkArguments [py_ast.mkArg "a" (at_ 3 6 7); py_ast.mkArg "b" (at_ 3 9 10)]
    (at_ 3 6 10).

(** [x = "v"] *)
Definition assign_x : py_ast.stmt :=
  py_ast.Assign [py_ast.Name "x" None (at_ 1 0 1)] (py_ast.Str "v" (at_ 1 4 7))
    (at_ 1 0 7).

(** [import os.path] *)
Definition import_os_path : py_ast.stmt :=
  py_ast.Import [py_ast.mkAlias "os.path" (at_ 1 7 14)] (at_ 1 0 14).

(** [pass] on line 1, [x = "v"] on line 2 *)
Definition pass_1 : py_ast.stmt := py_ast.Pass (at_ 1 0 4).
Definition assign_x_2 : py_ast.stmt :=
  py_ast.Assign [py_ast.Name "x" None (at_ 2 0 1)] (py_ast.Str "v" (at_ 2 4 7))
    (at_ 2 0 7).

(** A codec for the examples: ["{}"] parses to a descriptor without a
    name, anything else to the descriptor named [proj]. *)
Definition nameless : pack.Descriptor :=
  pack.mkDescriptor None None None None None None.
Definition named_proj : pack.Descriptor :=
  pack.mkDescriptor (Some "proj") None None None None None.
Definition toy_codec (raw : string) : result pack.Descriptor :=
  if String.eqb raw "{}" then Ok nameless else Ok named_proj.
Definition toy_unmarshalers : list (string * (string -> result pack.Descriptor)) :=
  [(".json", toy_codec); (".yaml", toy_codec)].

(** A disk with a descriptor without a name in [/proj/sub] and a good one
    in [/proj]. *)
Definition disk (path : string) : option string :=
  if String.eqb path "/proj/sub/Cocopack.json" then Some "{}"
  else if String.eqb path "/proj/Coconut.yaml" then Some "name: proj"
  else None.

(** A disk without any descriptor. *)
Definition empty_disk (path : string) : option string := None.

Definition proj_pkg : pack.Package :=
  pack.mkPackage "proj" None None None None None ∅.

(** A codec that cannot decode what it is given and says so with an
    [IOError], and a registry that tries it first. *)
Definition failing_codec (raw : string) : result pack.Descriptor :=
  Raise (IOError "cannot decode").
Definition mixed_unmarshalers : list (string * (string -> result pack.Descriptor)) :=
  [(".json", failing_codec); (".yaml", toy_codec)].

(** A disk with the project descriptor in both formats. *)
Definition two_format_disk (path : string) : option string :=
  if String.eqb path "/proj/Coconut.json" then Some "{ name: proj }"
  else if String.eqb path "/proj/Coconut.yaml" then Some "name: proj"
  else None.

End Samples.

(** * Notions used in the statements *)

(** A computation that leaves the context as it found it. *)
Definition keeps_ctx {A} (m : M A) : Prop := forall ctx, fst (m ctx) = ctx.

(** Every member sits under its own name. *)
Definition keyed (members : gmap string ast.Member) : Prop :=
  forall k v, members !! k = Some v -> ast.member_name v = k.

(** A top-level statement that is a function definition or an import. *)
Definition is_def_or_import (s : py_ast.stmt) : bool :=
  match s with
  | py_ast.FunctionDef _ _ _ _ | py_ast.Import _ _ => true
  | _ => false
  end.

(** The entrypoint member: the method named after the well-known token,
    with an empty block for a body. *)
Definition entrypoint_member (tokens : Tokens) : ast.Member :=
  ast.ModuleMethod (ast.mkIdentifier (func_entrypoint tokens) None) None None
    (Some (ast.mkBlock [] None)) None.

(** The init member over the given statements. *)
Definition init_member (tokens : Tokens) (initstmts : list ast.Statement)
  : ast.Member :=
  ast.ModuleMethod (ast.mkIdentifier (func_init tokens) None) None None
    (Some (ast.mkBlock initstmts None)) None.

(** An event of a probe that found nothing and went on: the path was not
    cached, and either [open] failed or the codec raised [IOError]. *)
Definition skipped (self : Loader) (ev : event) : Prop :=
  match ev with
  | CacheGet q | OpenFailed q | ReadFile q => cache self !! q = None
  | Unmarshal q d => cache self !! q = None /\ exists x, d = Raise (IOError x)
  end.

(** What [loadCore] does once a probe has ended the search. *)
Definition finish (self : Loader) (r : probed) : Loader * result pack.Package :=
  match r with
  | Hit p => (self, Ok p)
  | Loaded p pkgpath => (mkLoader (<[pkgpath := p]> (cache self)), Ok p)
  | Failed e => (self, Raise e)
  | Absent => (self, Raise (Exception ""))
  end.

(** The shape of a run of [loadCore]: probes that found nothing, and then
    either the iterations ran out, or the search gave up, or one last probe
    ended it. *)
Inductive run_shape (fs : string -> option string) (self : Loader) (root : string)
  : list event -> option (Loader * result pack.Package) -> Prop :=
| run_going evs :
    Forall (skipped self) evs -> run_shape fs self root evs None
| run_gave_up evs e :
    Forall (skipped self) evs ->
    e = UnboundLocalError "base" \/ e = no_package_found root ->
    run_shape fs self root evs (Some (self, Raise e))
| run_ended pre last_ pkgpath unmarshal r :
    Forall (skipped self) pre ->
    probe fs self pkgpath unmarshal = (last_, r) ->
    r <> Absent ->
    run_shape fs self root (pre ++ last_)%list (Some (finish self r)).

(** Every file that is read is handed to its codec. *)
Definition read_parsed (evs : list event) : Prop :=
  forall q, List.In (ReadFile q) evs -> exists d, List.In (Unmarshal q d) evs.

(** * Notions used in the further properties *)

(** Whether a call returned. *)
Definition is_ok {A} (r : result A) : bool :=
  match r with Ok _ => true | Raise _ => false end.

(** [expr.loc] of a node of the IR. *)
Definition Expression_loc (e : ast.Expression) : option ast.Location :=
  match e with
  | ast.LoadLocationExpression _ l | ast.LoadDynamicExpression _ _ l
  | ast.BinaryOperatorExpression _ _ _ l | ast.InvokeFunctionExpression _ _ l
  | ast.ConditionalExpression _ _ _ l | ast.NullLiteral l | ast.BoolLiteral _ l
  | ast.NumberLiteral _ l | ast.StringLiteral _ l => l
  end.

(** The expressions the pass can lower: names and attributes without a
    context, calls by their callee alone, comparisons with one operator
    other than a membership test, conditional expressions, strings, and
    name constants whose value is one of the strings [None], [True] and
    [False] (one that holds the object [None], [True] or [False] is not
    among them). *)
Fixpoint lowers (node : py_ast.expr) : bool :=
  match node with
  | py_ast.Attribute value _ None _ => lowers value
  | py_ast.Call func _ _ => lowers func
  | py_ast.Compare left_ [op] [comparator] _ =>
      lowers left_
      && match op with py_ast.In | py_ast.NotIn => false | _ => true end
      && lowers comparator
  | py_ast.IfExp test body orelse _ => lowers test && lowers body && lowers orelse
  | py_ast.Name _ None _ => true
  | py_ast.NameConstant value _ =>
      eq_str value "None" || eq_str value "True" || eq_str value "False"
  | py_ast.Str _ _ => true
  | _ => false
  end.

Definition is_Assign (s : py_ast.stmt) : bool :=
  match s with py_ast.Assign _ _ _ => true | _ => false end.

(** The statement lists the pass can turn into a block, given which
    statements it can lower: every statement lowers, and the list does not
    begin with an assignment and end with another kind of statement. *)
Definition block_lowers (stmt_lowers : py_ast.stmt -> bool) (nodes : list py_ast.stmt)
  : bool :=
  forallb stmt_lowers nodes
  && match nodes with
     | [] => true
     | first :: _ => negb (is_Assign first && negb (is_Assign (List.last nodes first)))
     end.

(** The statements the pass can lower below the top level. *)
Fixpoint stmt_lowers (node : py_ast.stmt) : bool :=
  match node with
  | py_ast.Assign [target] value _ => lowers target && lowers value
  | py_ast.Break _ | py_ast.Continue _ | py_ast.Pass _ => true
  | py_ast.Expr value _ => lowers value
  | py_ast.If test body [] _ => lowers test && block_lowers stmt_lowers body
  | py_ast.Return (Some value) _ => lowers value
  | _ => false
  end.

(** The statements the pass can lower at the top level of a module. *)
Definition toplevel_lowers (node : py_ast.stmt) : bool :=
  match node with
  | py_ast.FunctionDef _ _ body _ => block_lowers stmt_lowers body
  | py_ast.ClassDef _ _ => false
  | py_ast.Import _ _ => true
  | _ => stmt_lowers node
  end.

(** The names of the functions defined at the top level of a module. *)
Definition def_names (body : list py_ast.stmt) : list string :=
  flat_map (fun s => match s with
                     | py_ast.FunctionDef name _ _ _ => [name]
                     | _ => []
                     end) body.

(** A top-level statement that goes to the initializer. *)
Definition is_loose (s : py_ast.stmt) : bool := negb (is_def_or_import s).

(** The property a global name is registered as. *)
Definition property_member (tokens : Tokens) (propname : string) : ast.Member :=
  ast.ModuleProperty (ast.mkIdentifier propname None)
    (ast.mkTypeToken (type_dynamic tokens) None).

(** The export of a member: its name, and the token of the package, the
    module and the member joined by the delimiter. *)
Definition export_of (tokens : Tokens) (p : pack.Package) (ctx : Context)
           (name : string) : ast.Export :=
  ast.mkExport (ast.mkIdentifier name None)
    (ast.mkToken (current_module_token tokens p ctx ++ delim tokens ++ name) None).

(** A context in which globals have been collected, for the examples. *)
Definition ctx_with_globals (names : gset string) : Context :=
  mkContext (Samples.spec_of []) names None.

(** Whether a string holds a dot. *)
Fixpoint has_dot (s : string) : bool :=
  match s with
  | EmptyString => false
  | String c s' => Ascii.eqb c "."%char || has_dot s'
  end.

(** ** compile: the name of the module

    The pure end of [compile]: from the path of the file relative to the
    project, the name the module is transformed under. *)

(** [name.rfind(".")]: the index of the last dot, [-1] when there is none. *)
Fixpoint rfind_dot (name : string) : Z :=
  match name with
  | EmptyString => -1
  | String c name' =>
      let i := rfind_dot name' in
      if i =? -1 then (if Ascii.eqb c "."%char then 0 else -1) else i + 1
  end.

(** [extix = name.rfind("."); if extix != -1: name = name[:extix]] *)
Definition compile_module_name (name : string) : string :=
  let extix := rfind_dot name in
  if negb (extix =? -1) then String.substring 0 (Z.to_nat extix) name else name.

(** ** Notions for the loader *)

(** The package a descriptor is loaded as, [n] being its name. *)
Definition package_of (d : pack.Descriptor) (n : string) : pack.Package :=
  pack.mkPackage n (pack.d_description d) (pack.d_author d) (pack.d_website d)
    (pack.d_license d) (pack.d_dependencies d) ∅.

(** The candidate paths of a directory, in the order they are probed: the
    base names in the order given, each with the extensions in the order of
    the registry. *)
Definition candidates (search : string) (filebases exts : list string) : list string :=
  flat_map (fun filebase => map (fun ext => posixpath.join search filebase ++ ext) exts)
    filebases.

(** The paths looked up in the cache, in order. *)
Definition cache_gets (evs : list event) : list string :=
  flat_map (fun ev => match ev with CacheGet q => [q] | _ => [] end) evs.

(** What probing a candidate that is neither cached nor on disk leaves in
    the trace. *)
Definition absent_trace (paths : list string) : list event :=
  flat_map (fun q => [CacheGet q; OpenFailed q]) paths.

(** A codec that always fails, for the examples. *)
Definition failing_unmarshalers : list (string * (string -> result pack.Descriptor)) :=
  [(".json", fun _ => Raise (Exception "no JSON object could be decoded"))].

(** A disk whose only descriptor, [/proj/Coconut.json], has an empty name. *)
Definition disk_empty_name (path : string) : option string :=
  if String.eqb path "/proj/Coconut.json" then Some "name: ''" else None.

Definition empty_name_unmarshalers : list (string * (string -> result pack.Descriptor)) :=
  [(".json", fun _ => Ok (pack.mkDescriptor (Some "") None None None None None))].

(** * Properties of the lowering pass *)

(** ** Calls *)

(** Whatever the argument list of the call, the invocation has none. *)
Lemma transform_Call_no_arguments ctx func args loc func' :
  transform_expr ctx func = Ok func' ->
  transform_expr ctx (py_ast.Call func args loc)
  = Ok (ast.InvokeFunctionExpression func' [] (loc_from ctx (Some loc))).
Proof.
  intros Hfunc. cbn [transform_expr]. unfold transform_Call.
  fold (transform_expr ctx). rewrite Hfunc. reflexivity.
Qed.

(** C1: in the call [f(x)] the callee and the argument both lower to a load,
    but lowering the call gives an invocation of the lowered callee with an
    empty argument list: the one argument of the source call is neither
    lowered nor included. *)
Theorem C1_call_loses_arguments :
  let ctx := Samples.ctx_of [] in
  let f := py_ast.Name "f" None (Samples.at_ 1 0 1) in
  let x := py_ast.Name "x" None (Samples.at_ 1 2 3) in
  Samples.call_f_x = py_ast.Call f [x] (Samples.at_ 1 0 4) /\
  exists f' x',
    transform_expr ctx f = Ok f' /\
    transform_expr ctx x = Ok x' /\
    transform_expr ctx Samples.call_f_x
    = Ok (ast.InvokeFunctionExpression f' [] (loc_from ctx (Some (Samples.at_ 1 0 4)))).
Proof.
  cbv zeta. split; [reflexivity|].
  eexists _, _. split; [reflexivity|]. split; [reflexivity|].
  unfold Samples.call_f_x. apply transform_Call_no_arguments. reflexivity.
Qed.

(** ** Numeric literals *)

(** C5: lowering a numeric literal never produces a literal: the handler
    reads [self.value], which the transformer does not have, and raises
    before the node's own value is looked at. *)
Theorem C5_num_raises ctx n loc :
  transform_expr ctx (py_ast.Num n loc) = Raise (AttributeError "Transformer" "value").
Proof. reflexivity. Qed.

(** ** Function definitions *)

(** The method a function definition lowers to never has a body. *)
Lemma transform_FunctionDef_no_body tokens name args body loc ctx ctx' m :
  transform_FunctionDef tokens name args body loc ctx = (ctx', Ok m) ->
  exists id params ret_ty l, m = ast.ModuleMethod id params ret_ty None l.
Proof.
  unfold transform_FunctionDef, bindM, expr_in.
  destruct (transform_block_stmts _ _ _) as [c [b|e]]; intros H;
    inversion H; subst; eauto.
Qed.

(** C2: for [def f(a): return a] the statement body lowers to a block
    returning a load of [a], and the method the definition lowers to has
    the name [f], one dynamic parameter, whose identifier holds the [arg]
    node of [a] and not the string, and the dynamic return type, but no
    body: the block is dropped. *)
Theorem C2_function_body_dropped :
  let ctx := Samples.ctx_of [Samples.def_f] in
  exists blk load_a l1 l2 id params ret_ty l3,
    transform_block_stmts transform_stmt [Samples.return_a]
      (mkContext (mod_ ctx) (globals ctx) (Some Samples.def_f))
    = (mkContext (mod_ ctx) (globals ctx) (Some Samples.def_f), Ok blk) /\
    blk = ast.mkBlock [ast.ReturnStatement (Some load_a) l1] l2 /\
    load_a = ast.LoadLocationExpression (ast.mkToken "a" None)
               (loc_from ctx (Some (Samples.at_ 2 11 12))) /\
    transform_FunctionDef coconut_tokens "f" Samples.def_f_args [Samples.return_a]
      (Samples.at_ 1 0 12) ctx
    = (ctx, Ok (ast.ModuleMethod id params ret_ty None l3)) /\
    ast.ident id = "f" /\
    option_map (map (fun v => (ast.arg_ident (ast.var_name v),
                               ast.type_tok (ast.var_type v)))) params
    = Some [(Samples.arg_a, "dynamic")] /\
    option_map ast.type_tok ret_ty = Some "dynamic".
Proof.
  cbv zeta. do 8 eexists.
  repeat split; reflexivity.
Qed.

(** ** Assignments and the globals set *)

(** Induction on statements that reaches into the bodies. *)
Lemma stmt_nested_ind (P : py_ast.stmt -> Prop) :
  (forall s,
      match s with
      | py_ast.If _ body orelse _ => Forall P body /\ Forall P orelse
      | py_ast.FunctionDef _ _ body _ => Forall P body
      | _ => True
      end -> P s) ->
  forall s, P s.
Proof.
  intros step. fix IH 1. intros s. apply step.
  pose (all := fix all (l : list py_ast.stmt) : Forall P l :=
          match l with
          | [] => @Stdlib.Lists.List.Forall_nil _ P
          | x :: l' => @Stdlib.Lists.List.Forall_cons _ P x l' (IH x) (all l')
          end).
  destruct s; try exact I.
  - apply all.
  - split; apply all.
Qed.

Lemma keeps_ret {A} (a : A) : keeps_ctx (ret a).
Proof. intros ctx. reflexivity. Qed.

Lemma keeps_raise {A} e : keeps_ctx (@raise A e).
Proof. intros ctx. reflexivity. Qed.

Lemma keeps_expr_in {A} (f : Context -> result A) : keeps_ctx (expr_in f).
Proof. intros ctx. reflexivity. Qed.

Lemma keeps_bindM {A B} (m : M A) (k : A -> M B) :
  keeps_ctx m -> (forall a, keeps_ctx (k a)) -> keeps_ctx (bindM m k).
Proof.
  intros Hm Hk ctx. unfold bindM. specialize (Hm ctx).
  destruct (m ctx) as [ctx' [a|e]]; simpl in *; subst; [apply Hk | reflexivity].
Qed.

(** What [transform_Assign] hands to [track_assign] is a node of the IR,
    which is no [py_ast.Name]: nothing is added. *)
Lemma keeps_track_assign_IR lhs : keeps_ctx (track_assign (IRNode lhs)).
Proof. intros ctx. reflexivity. Qed.

Lemma keeps_for_each {A B} (f : A -> M B) nodes :
  Forall (fun node => keeps_ctx (f node)) nodes -> keeps_ctx (for_each f nodes).
Proof.
  induction 1 as [|node nodes Hnode _ IH]; simpl.
  - apply keeps_ret.
  - apply keeps_bindM; [exact Hnode|]. intros s.
    apply keeps_bindM; [exact IH|]. intros ss. apply keeps_ret.
Qed.

Create HintDb keeps.
#[local] Hint Resolve keeps_ret keeps_raise keeps_expr_in keeps_track_assign_IR : keeps.

Lemma keeps_transform_block_stmts rec nodes :
  Forall (fun node => keeps_ctx (rec node)) nodes ->
  keeps_ctx (transform_block_stmts rec nodes).
Proof.
  intros H. unfold transform_block_stmts.
  apply keeps_bindM; [now apply keeps_for_each|]. intros stmts.
  apply keeps_bindM; auto with keeps.
Qed.

(** No statement handler changes the context: in particular no assignment
    ever reaches the globals set. *)
Lemma keeps_transform_stmt node : keeps_ctx (transform_stmt node).
Proof.
  induction node as [s IH] using stmt_nested_ind.
  destruct s; cbn [transform_stmt];
    unfold transform_Break, transform_Continue, transform_Pass; auto with keeps.
  - (* Assign *)
    unfold transform_Assign. destruct targets as [|target [|]]; auto with keeps.
    repeat (apply keeps_bindM; [auto with keeps|]; intros ?). auto with keeps.
  - (* Expr *)
    unfold transform_Expr. apply keeps_bindM; auto with keeps.
  - (* If *)
    destruct IH as [Hbody _]. unfold transform_If.
    apply keeps_bindM; [auto with keeps|]. intros cond.
    apply keeps_bindM; [now apply keeps_transform_block_stmts|]. intros cons.
    apply keeps_bindM; [destruct orelse; auto with keeps|]. auto with keeps.
  - (* Return *)
    unfold transform_Return. destruct value; auto with keeps.
    apply keeps_bindM; auto with keeps.
Qed.

(** A function definition leaves the context as it was: the body keeps it,
    and [finally] puts the enclosing function back. *)
Lemma keeps_transform_FunctionDef tokens name args body loc :
  keeps_ctx (transform_FunctionDef tokens name args body loc).
Proof.
  intros ctx. unfold transform_FunctionDef.
  match goal with
  | |- fst (let '(_, _) := ?m ?c in _) = _ =>
      assert (Hm : keeps_ctx m); [|specialize (Hm c); destruct (m c) as [ctx' r]]
  end.
  - apply keeps_bindM; [auto with keeps|]. intros id.
    apply keeps_bindM; [auto with keeps|]. intros params.
    apply keeps_bindM; [|auto with keeps].
    apply keeps_transform_block_stmts.
    apply Stdlib.Lists.List.Forall_forall. intros node _. apply keeps_transform_stmt.
  - cbn [fst] in *. subst ctx'. destruct ctx. reflexivity.
Qed.

Lemma keeps_transform_toplevel tokens body :
  forall members initstmts imports,
    keeps_ctx (transform_toplevel tokens body members initstmts imports).
Proof.
  induction body as [|stmt body IH]; intros members initstmts imports;
    cbn [transform_toplevel]; [apply keeps_ret|].
  destruct stmt;
    (apply keeps_bindM;
     [first [ apply keeps_transform_FunctionDef
            | apply keeps_expr_in
            | apply keeps_transform_stmt ]
     | intros ?; apply IH ]).
Qed.

(** Lowering a module leaves the context as it was: whatever the module
    assigns at top level, the globals set it ends with is the one it began
    with, empty for a fresh context. *)
Lemma keeps_transform_Module tokens p name node :
  keeps_ctx (transform_Module tokens p name node).
Proof.
  unfold transform_Module.
  apply keeps_bindM; [intros ctx; reflexivity|]. intros ctx0.
  apply keeps_bindM; [apply keeps_transform_toplevel|]. intros [[members initstmts] imports].
  apply keeps_bindM; [intros ctx; reflexivity|]. intros ctx.
  apply keeps_bindM; [apply keeps_expr_in|]. intros members'. apply keeps_ret.
Qed.

(** C3: the module [x = "v"], a single top-level assignment to a bare name
    lowered from a fresh context, is produced with an empty globals set and
    without any member [x]: the name is not tracked, as [track_assign] is
    given the lowered left-hand side instead of the source node. *)
Theorem C3_toplevel_name_not_tracked :
  let ctx := Samples.ctx_of [Samples.assign_x] in
  func ctx = None /\
  match transform_Module coconut_tokens Samples.the_pkg "m"
          (py_ast.mkModule [Samples.assign_x]) ctx with
  | (ctx', Ok m) =>
      globals ctx' = ∅ /\
      ast.members m !! "x" = None /\
      dom (ast.members m) = {[ "__name__"; ".init"; ".main" ]}
  | (_, Raise _) => False
  end.
Proof.
  cbv zeta. split; [reflexivity|].
  vm_compute. repeat split; reflexivity.
Qed.

(** ** Module assembly *)

Lemma keyed_insert members v :
  keyed members -> keyed (<[ast.member_name v := v]> members).
Proof.
  intros Hk k v'. rewrite lookup_insert. case_decide as Heq.
  - intros [= <-]. exact Heq.
  - apply Hk.
Qed.

Section Assembly.

Variable tokens : Tokens.

(** The loop over the top-level statements keeps the members keyed by
    name and only appends to the init list; definitions and imports
    append nothing. *)
Lemma transform_toplevel_spec body :
  forall members initstmts imports ctx ctx' members' initstmts' imports',
    transform_toplevel tokens body members initstmts imports ctx
    = (ctx', Ok (members', initstmts', imports')) ->
    keyed members ->
    keyed members' /\
    exists rest, initstmts' = (initstmts ++ rest)%list /\
                 (forallb is_def_or_import body = true -> rest = []).
Proof.
  induction body as [|stmt body IH]; intros members initstmts imports ctx ctx'
    members' initstmts' imports' Hrun Hkeyed.
  - inversion Hrun; subst. split; [assumption|].
    exists []. split; [now rewrite app_nil_r | reflexivity].
  - cbn [transform_toplevel] in Hrun.
    destruct stmt; unfold bindM in Hrun;
      match type of Hrun with
      | (let (_, _) := ?m ctx in _) = _ =>
          destruct (m ctx) as [c [x|e]] eqn:Hm; [|discriminate]
      end;
      try (unfold transform_ClassDef, expr_in, not_yet_implemented in Hm;
           discriminate Hm);
      (apply IH in Hrun; [|first [assumption | now apply keyed_insert]]);
      destruct Hrun as [Hk (rest & -> & Hrest)];
      (split; [assumption|]);
      first [ solve [exists rest; split; [reflexivity | exact Hrest]]
            | exists (x :: rest); split;
              [now rewrite <- app_assoc | discriminate] ].
Qed.

(** Registering the globals keeps what is there and adds properties under
    their own names. *)
Lemma add_properties_spec ctx propnames :
  forall members members',
    add_properties tokens ctx propnames members = Ok members' ->
    (forall k v, members !! k = Some v -> members' !! k = Some v) /\
    (keyed members -> keyed members').
Proof.
  induction propnames as [|propname rest IH]; intros members members' Hrun.
  - inversion Hrun; subst. auto.
  - cbn [add_properties] in Hrun.
    destruct (members !! propname) eqn:Hfree; [discriminate|].
    apply IH in Hrun as [Hkeep Hkeyed]. split.
    + intros k v Hkv. apply Hkeep. rewrite lookup_insert_ne; [assumption|].
      intros ->. congruence.
    + intros Hk. apply Hkeyed.
      apply (keyed_insert members
               (ast.ModuleProperty (ident ctx propname None)
                  (type_token ctx (type_dynamic tokens) None))).
      exact Hk.
Qed.

(** What a produced module holds: members keyed by name, the entrypoint,
    and the init method over a list that starts with the [__name__]
    assignment and, for a module of definitions and imports only, ends
    there. *)
Lemma transform_Module_members p name node ctx ctx' m :
  transform_Module tokens p name node ctx = (ctx', Ok m) ->
  keyed (ast.members m) /\
  ast.members m !! func_entrypoint tokens = Some (entrypoint_member tokens) /\
  (func_init tokens <> func_entrypoint tokens ->
   exists rest,
     ast.members m !! func_init tokens = Some (init_member tokens (modname_init :: rest)) /\
     (forallb is_def_or_import (py_ast.body node) = true -> rest = [])).
Proof.
  unfold transform_Module, bindM, get_ctx, expr_in, ret.
  destruct (transform_toplevel _ _ _ _ _ _) as [c [[[members initstmts] imports]|e]]
    eqn:Htop; [|discriminate].
  destruct (add_properties _ _ _ _) as [members'|e] eqn:Hprops; [|discriminate].
  intros [= <- <-]. cbn [ast.members].
  apply transform_toplevel_spec in Htop as [Hkeyed (rest & -> & Hrest)].
  2:{ intros k v. rewrite lookup_singleton. case_decide; [|discriminate].
      intros [= <-]. assumption. }
  apply add_properties_spec in Hprops as [Hkeep Hkeyed'].
  cbn [app length Nat.ltb Nat.leb] in Hkeep, Hkeyed'.
  split; [|split].
  - apply Hkeyed'.
    apply (keyed_insert _ (entrypoint_member tokens)).
    apply (keyed_insert _ (init_member tokens (modname_init :: rest))).
    exact Hkeyed.
  - apply Hkeep. apply lookup_insert_eq.
  - intros Hne. exists rest. split; [|exact Hrest].
    apply Hkeep. rewrite lookup_insert_ne by congruence.
    apply lookup_insert_eq.
Qed.

End Assembly.

(** C10: every module the pass produces has the entrypoint method, with an
    empty block for a body, under the entrypoint name, and no other member
    carries that name; this holds whatever the top-level statements are and
    whether or not an init member is there. *)
Theorem C10_exactly_one_entrypoint tokens p name node ctx ctx' m :
  transform_Module tokens p name node ctx = (ctx', Ok m) ->
  ast.members m !! func_entrypoint tokens = Some (entrypoint_member tokens) /\
  forall k v,
    ast.members m !! k = Some v ->
    ast.member_name v = func_entrypoint tokens ->
    k = func_entrypoint tokens /\ v = entrypoint_member tokens.
Proof.
  intros Hrun.
  apply transform_Module_members in Hrun as (Hkeyed & Hentry & _).
  split; [exact Hentry|].
  intros k v Hkv Hname.
  assert (k = func_entrypoint tokens) as -> by (rewrite <- (Hkeyed k v Hkv); exact Hname).
  split; [reflexivity | congruence].
Qed.

(** The module with no top-level statement is produced, and has its
    entrypoint. *)
Lemma C10_exactly_one_entrypoint_witness :
  exists ctx' m,
    transform_Module coconut_tokens Samples.the_pkg "m" (py_ast.mkModule [])
      (Samples.ctx_of []) = (ctx', Ok m) /\
    (ast.members m !! ".main" = Some (entrypoint_member coconut_tokens) /\
     forall k v,
       ast.members m !! k = Some v ->
       ast.member_name v = ".main" ->
       k = ".main" /\ v = entrypoint_member coconut_tokens).
Proof.
  eexists _, _. split.
  - vm_compute. reflexivity.
  - apply (C10_exactly_one_entrypoint coconut_tokens Samples.the_pkg "m"
             (py_ast.mkModule []) (Samples.ctx_of []) (Samples.ctx_of [])).
    vm_compute. reflexivity.
Defined.

(** The module [def f(a): return a; import os.path] has only a definition
    and an import at top level, and is produced with an init member. *)
Lemma C4_counterexample :
  let body := [Samples.def_f; Samples.import_os_path] in
  forallb is_def_or_import body = true /\
  exists ctx' m,
    transform_Module coconut_tokens Samples.the_pkg "m" (py_ast.mkModule body)
      (Samples.ctx_of body) = (ctx', Ok m) /\
    ast.members m !! func_init coconut_tokens <> None.
Proof.
  cbv zeta. split; [reflexivity|].
  eexists _, _. split.
  - vm_compute. reflexivity.
  - vm_compute. discriminate.
Qed.

(** C4 (amended): a module whose top-level statements are only function
    definitions and imports is produced with an init member, whose body is
    the block of the one synthesized statement [__name__ = "__main__"]; the
    init list starts with that statement in every module, so the init method
    is always registered. *)
Theorem C4_init_member_always tokens p name node ctx ctx' m :
  func_init tokens <> func_entrypoint tokens ->
  transform_Module tokens p name node ctx = (ctx', Ok m) ->
  exists rest,
    ast.members m !! func_init tokens
    = Some (init_member tokens (modname_init :: rest)) /\
    (forallb is_def_or_import (py_ast.body node) = true -> rest = []).
Proof.
  intros Hne Hrun.
  apply transform_Module_members in Hrun as (_ & _ & Hinit).
  exact (Hinit Hne).
Qed.

Lemma C4_init_member_always_witness :
  let body := [Samples.def_f; Samples.import_os_path] in
  func_init coconut_tokens <> func_entrypoint coconut_tokens /\
  exists ctx' m,
    transform_Module coconut_tokens Samples.the_pkg "m" (py_ast.mkModule body)
      (Samples.ctx_of body) = (ctx', Ok m) /\
    exists rest,
      ast.members m !! func_init coconut_tokens
      = Some (init_member coconut_tokens (modname_init :: rest)) /\
      (forallb is_def_or_import body = true -> rest = []).
Proof.
  cbv zeta.
  assert (Hne : func_init coconut_tokens <> func_entrypoint coconut_tokens)
    by (vm_compute; discriminate).
  split; [exact Hne|].
  eexists _, _. split.
  - vm_compute. reflexivity.
  - apply (C4_init_member_always coconut_tokens Samples.the_pkg "m"
             (py_ast.mkModule [Samples.def_f; Samples.import_os_path])
             (Samples.ctx_of [Samples.def_f; Samples.import_os_path])
             (Samples.ctx_of [Samples.def_f; Samples.import_os_path]) _ Hne).
    vm_compute. reflexivity.
Defined.

(** ** Block locations *)

(** The location [propagate_loc] gives, by the locations of the first and
    of the last statement. *)
Lemma propagate_loc_cases first rest loc :
  propagate_loc (first :: rest) = Ok loc ->
  match ast.stmt_loc first, ast.stmt_loc (List.last (first :: rest) first) with
  | Some lf, Some ll =>
      loc = if truthy (ast.file lf)
            then Some (ast.mkLocation (ast.file lf) (ast.start lf) (ast.end_ ll))
            else None
  | Some lf, None =>
      loc = if truthy (ast.file lf)
            then Some (ast.mkLocation (ast.file lf) (ast.start lf) None)
            else None
  | None, None => loc = None
  | None, Some _ => False
  end.
Proof.
  unfold propagate_loc.
  destruct (ast.stmt_loc first) as [lf|];
    destruct (ast.stmt_loc (List.last (first :: rest) first)) as [ll|];
    cbn [bind]; try destruct (truthy (ast.file lf)); congruence.
Qed.

(** The block [pass; x = "v"]: the last statement has no location, and the
    block is recorded with a location that has a start and no end. *)
Lemma C7_counterexample :
  match transform_block_stmts transform_stmt [Samples.pass_1; Samples.assign_x_2]
          (Samples.ctx_of []) with
  | (_, Ok blk) =>
      exists first last_,
        ast.statements blk = [first; last_] /\
        ast.stmt_loc last_ = None /\
        ast.block_loc blk
        = Some (ast.mkLocation "m.py" (ast.mkPosition 1 1) None)
  | (_, Raise _) => False
  end.
Proof.
  vm_compute. eexists _, _. repeat split; reflexivity.
Qed.

(** C7 (amended): a produced block holds the lowered statements; with no
    statement it has no location; when the first and the last statement both
    have a location, the block's location runs from the start of the first
    to the end of the last, in the first's file; when both lack one, the
    block has none; when only the last lacks one, the block has a location
    with the first's file and start and no end.  A location is recorded only
    under a non-empty file path.  (Nothing is said of a block whose first
    statement lacks a location while its last has one.) *)
Theorem C7_block_location nodes ctx ctx' blk :
  transform_block_stmts transform_stmt nodes ctx = (ctx', Ok blk) ->
  for_each transform_stmt nodes ctx = (ctx', Ok (ast.statements blk)) /\
  match ast.statements blk with
  | [] => ast.block_loc blk = None
  | first :: _ =>
      match ast.stmt_loc first,
            ast.stmt_loc (List.last (ast.statements blk) first) with
      | Some lf, Some ll =>
          ast.block_loc blk
          = if truthy (ast.file lf)
            then Some (ast.mkLocation (ast.file lf) (ast.start lf) (ast.end_ ll))
            else None
      | Some lf, None =>
          ast.block_loc blk
          = if truthy (ast.file lf)
            then Some (ast.mkLocation (ast.file lf) (ast.start lf) None)
            else None
      | None, None => ast.block_loc blk = None
      | None, Some _ => True
      end
  end.
Proof.
  unfold transform_block_stmts, bindM, expr_in, ret.
  destruct (for_each transform_stmt nodes ctx) as [c [stmts|e]]; [|discriminate].
  destruct (propagate_loc stmts) as [loc|e] eqn:Hloc; [|discriminate].
  intros [= <- <-]. cbn [ast.statements ast.block_loc].
  split; [reflexivity|].
  destruct stmts as [|first rest].
  - now inversion Hloc.
  - apply propagate_loc_cases in Hloc.
    destruct (ast.stmt_loc first), (ast.stmt_loc (List.last (first :: rest) first));
      auto.
Qed.

(** The block [pass; return a], whose two statements have locations. *)
Lemma C7_block_location_witness :
  exists ctx' blk,
    transform_block_stmts transform_stmt [Samples.pass_1; Samples.return_a]
      (Samples.ctx_of []) = (ctx', Ok blk) /\
    ast.block_loc blk
    = Some (ast.mkLocation "m.py" (ast.mkPosition 1 1) (Some (ast.mkPosition 2 13))).
Proof.
  eexists _, _. split.
  - vm_compute. reflexivity.
  - pose proof (C7_block_location [Samples.pass_1; Samples.return_a]
                  (Samples.ctx_of []) _ _ eq_refl) as [_ H].
    exact H.
Defined.

(** * Properties of the loader *)

Section LoaderFacts.

Variable fs : string -> option string.
Variable unmarshalers : list (string * (string -> result pack.Descriptor)).

Lemma probe_absent self pkgpath unmarshal evs :
  probe fs self pkgpath unmarshal = (evs, Absent) -> Forall (skipped self) evs.
Proof.
  unfold probe.
  destruct (cache self !! pkgpath) eqn:Hc; [discriminate|].
  destruct (fs pkgpath) as [raw|].
  - destruct (unmarshal raw) as [d|e] eqn:Hu.
    + destruct (pack.d_name d) as [n|]; [destruct (truthy n)|]; discriminate.
    + destruct e; try discriminate. intros [= <-].
      repeat constructor; simpl; eauto.
  - intros [= <-]. repeat constructor; assumption.
Qed.

(** The extension loop either finds nothing, or stops at one probe. *)
Lemma probe_exts_shape self base exts :
  forall evs r,
    probe_exts fs self base exts = (evs, r) ->
    (r = Absent /\ Forall (skipped self) evs) \/
    (r <> Absent /\
     exists pre last_ pkgpath unmarshal,
       evs = (pre ++ last_)%list /\ Forall (skipped self) pre /\
       probe fs self pkgpath unmarshal = (last_, r)).
Proof.
  induction exts as [|[ext unmarshal] exts IH]; intros evs r; cbn [probe_exts].
  - intros [= <- <-]. left. split; [reflexivity | constructor].
  - destruct (probe fs self (base ++ ext) unmarshal) as [evs0 r0] eqn:Hp.
    destruct r0.
    1,2,4: intros [= <- <-]; right; split; [discriminate|];
           exists [], evs0, (base ++ ext), unmarshal;
           split; [reflexivity|]; split; [constructor | exact Hp].
    destruct (probe_exts fs self base exts) as [evs' r'] eqn:Hrest.
    intros [= <- <-]. apply probe_absent in Hp.
    destruct (IH _ _ eq_refl) as [[-> Hall] | [Hne (pre & last_ & p & u & -> & Hpre & Hlast)]].
    + left. split; [reflexivity|]. apply Forall_app; split; assumption.
    + right. split; [assumption|].
      exists (evs0 ++ pre)%list, last_, p, u.
      split; [now rewrite app_assoc|].
      split; [apply Forall_app; split; assumption | exact Hlast].
Qed.

Lemma probe_bases_shape self search filebases :
  forall base evs base' r,
    probe_bases fs unmarshalers self search filebases base = (evs, base', r) ->
    (r = Absent /\ Forall (skipped self) evs) \/
    (r <> Absent /\
     exists pre last_ pkgpath unmarshal,
       evs = (pre ++ last_)%list /\ Forall (skipped self) pre /\
       probe fs self pkgpath unmarshal = (last_, r)).
Proof.
  induction filebases as [|filebase filebases IH]; intros base evs base' r;
    cbn [probe_bases].
  - intros [= <- <- <-]. left. split; [reflexivity | constructor].
  - destruct (probe_exts fs self (posixpath.join search filebase) unmarshalers)
      as [evs0 r0] eqn:Hexts.
    apply probe_exts_shape in Hexts.
    destruct r0.
    1,2,4: intros [= <- <- <-];
           destruct Hexts as [[? _] | Hdone]; [discriminate | right; exact Hdone].
    destruct (probe_bases fs unmarshalers self search filebases
                (Some (posixpath.join search filebase)))
      as [[evs' b'] r'] eqn:Hrest.
    intros [= <- <- <-].
    destruct Hexts as [[_ Hall0] | [Hne _]]; [|congruence].
    destruct (IH _ _ _ _ Hrest) as [[-> Hall] | [Hne (pre & last_ & p & u & -> & Hpre & Hlast)]].
    + left. split; [reflexivity|]. apply Forall_app; split; assumption.
    + right. split; [assumption|].
      exists (evs0 ++ pre)%list, last_, p, u.
      split; [now rewrite app_assoc|].
      split; [apply Forall_app; split; assumption | exact Hlast].
Qed.

(** Every run of [loadCore] has one of the three shapes. *)
Lemma loadCore_from_shape fuel self root filebases upwards :
  forall search evs out,
    loadCore_from fs unmarshalers fuel self root filebases upwards search = (evs, out) ->
    run_shape fs self root evs out.
Proof.
  induction fuel as [|fuel IH]; intros search evs out; cbn [loadCore_from].
  - intros [= <- <-]. apply run_going. constructor.
  - destruct (probe_bases fs unmarshalers self search filebases None)
      as [[evs0 base] r] eqn:Hbases.
    apply probe_bases_shape in Hbases.
    destruct Hbases as [[-> Hall] | [Hne (pre & last_ & p & u & -> & Hpre & Hlast)]].
    + destruct upwards.
      * destruct base as [base|].
        -- destruct (String.eqb base "/").
           ++ intros [= <- <-]. apply run_gave_up; auto.
           ++ destruct (loadCore_from _ _ fuel _ _ _ _ _) as [evs' out'] eqn:Hrest.
              intros [= <- <-]. apply IH in Hrest.
              inversion Hrest; subst.
              ** apply run_going. apply Forall_app; split; assumption.
              ** apply run_gave_up; [apply Forall_app; split; assumption | assumption].
              ** rewrite app_assoc. eapply run_ended; eauto.
                 apply Forall_app; split; assumption.
        -- intros [= <- <-]. apply run_gave_up; auto.
      * intros [= <- <-]. apply run_gave_up; auto.
    + assert (Hout : (evs, out) = ((pre ++ last_)%list, Some (finish self r)) ->
                     run_shape fs self root evs out).
      { intros [= -> ->]. eapply run_ended; eauto. }
      destruct r; try congruence; intros H; apply Hout; rewrite <- H; reflexivity.
Qed.

Lemma loadCore_shape fuel self root filebases upwards evs out :
  loadCore fs unmarshalers fuel self root filebases upwards = (evs, out) ->
  run_shape fs self root evs out.
Proof. apply loadCore_from_shape. Qed.

End LoaderFacts.

Lemma read_parsed_app evs evs' :
  read_parsed evs -> read_parsed evs' -> read_parsed (evs ++ evs')%list.
Proof.
  intros H H' q Hin. apply in_app_or in Hin as [Hin|Hin].
  - destruct (H q Hin) as [d Hd]. exists d. apply in_or_app. now left.
  - destruct (H' q Hin) as [d Hd]. exists d. apply in_or_app. now right.
Qed.

Section LoaderReads.

Variable fs : string -> option string.
Variable unmarshalers : list (string * (string -> result pack.Descriptor)).

Lemma probe_read_parsed self pkgpath unmarshal :
  read_parsed (fst (probe fs self pkgpath unmarshal)).
Proof.
  unfold probe. intros q.
  destruct (cache self !! pkgpath); [simpl; intuition discriminate|].
  destruct (fs pkgpath) as [raw|]; [|simpl; intuition discriminate].
  assert (Hevs : forall r,
             List.In (ReadFile q)
               (fst ([CacheGet pkgpath; ReadFile pkgpath;
                      Unmarshal pkgpath (unmarshal raw)], r : probed)) ->
             exists d, List.In (Unmarshal q d)
               (fst ([CacheGet pkgpath; ReadFile pkgpath;
                      Unmarshal pkgpath (unmarshal raw)], r))).
  { intros r [H|[H|[H|[]]]]; try discriminate. injection H as <-.
    exists (unmarshal raw). simpl. auto. }
  destruct (unmarshal raw) as [d|e].
  - destruct (pack.d_name d) as [n|]; [destruct (truthy n)|]; apply Hevs.
  - destruct e; apply Hevs.
Qed.

Lemma probe_exts_read_parsed self base exts :
  read_parsed (fst (probe_exts fs self base exts)).
Proof.
  induction exts as [|[ext unmarshal] exts IH]; cbn [probe_exts].
  - intros q [].
  - pose proof (probe_read_parsed self (base ++ ext) unmarshal) as Hp.
    destruct (probe fs self (base ++ ext) unmarshal) as [evs0 r0].
    destruct r0; try exact Hp.
    destruct (probe_exts fs self base exts) as [evs' r'].
    now apply read_parsed_app.
Qed.

Lemma probe_bases_read_parsed self search filebases :
  forall base,
    read_parsed (fst (fst (probe_bases fs unmarshalers self search filebases base))).
Proof.
  induction filebases as [|filebase filebases IH]; intros base; cbn [probe_bases].
  - intros q [].
  - pose proof (probe_exts_read_parsed self (posixpath.join search filebase)
                  unmarshalers) as Hp.
    destruct (probe_exts fs self (posixpath.join search filebase) unmarshalers)
      as [evs0 r0].
    destruct r0; try exact Hp.
    specialize (IH (Some (posixpath.join search filebase))).
    destruct (probe_bases fs unmarshalers self search filebases _) as [[evs' b'] r'].
    now apply read_parsed_app.
Qed.

Lemma loadCore_from_read_parsed fuel self root filebases upwards :
  forall search,
    read_parsed
      (fst (loadCore_from fs unmarshalers fuel self root filebases upwards search)).
Proof.
  induction fuel as [|fuel IH]; intros search; cbn [loadCore_from].
  - intros q [].
  - pose proof (probe_bases_read_parsed self search filebases None) as Hp.
    destruct (probe_bases fs unmarshalers self search filebases None)
      as [[evs0 base] r].
    destruct r; try exact Hp.
    destruct upwards; [|exact Hp].
    destruct base as [base|]; [|exact Hp].
    destruct (String.eqb base "/"); [exact Hp|].
    specialize (IH (posixpath.normpath (posixpath.join search ".."))).
    destruct (loadCore_from _ _ fuel _ _ _ _ _) as [evs' out'].
    now apply read_parsed_app.
Qed.

(** ** Nothing to find *)

Hypothesis no_file : forall path, fs path = None.

Lemma probe_exts_nothing self base exts :
  cache self = ∅ -> snd (probe_exts fs self base exts) = Absent.
Proof.
  intros Hcache. induction exts as [|[ext unmarshal] exts IH]; cbn [probe_exts].
  - reflexivity.
  - unfold probe. rewrite Hcache, lookup_empty, no_file.
    destruct (probe_exts fs self base exts). exact IH.
Qed.

(** With nothing to find, the loop over the base names ends with [base]
    bound to the candidate of the last name. *)
Lemma probe_bases_nothing self search filebases :
  cache self = ∅ ->
  forall base,
    snd (probe_bases fs unmarshalers self search filebases base) = Absent /\
    snd (fst (probe_bases fs unmarshalers self search filebases base))
    = fold_left (fun _ filebase => Some (posixpath.join search filebase))
        filebases base.
Proof.
  intros Hcache. induction filebases as [|filebase filebases IH]; intros base;
    cbn [probe_bases fold_left].
  - split; reflexivity.
  - pose proof (probe_exts_nothing self (posixpath.join search filebase)
                  unmarshalers Hcache) as Hp.
    destruct (probe_exts fs self (posixpath.join search filebase) unmarshalers)
      as [evs0 r0].
    cbn [snd] in Hp. subst r0.
    specialize (IH (Some (posixpath.join search filebase))).
    destruct (probe_bases fs unmarshalers self search filebases _) as [[evs' b'] r'].
    exact IH.
Qed.

(** Once the walk stands at a directory that is its own parent, and the
    last candidate there is not the string ["/"], it goes on for as many
    iterations as it is given. *)
Lemma loadCore_from_stuck self root filebases search base :
  cache self = ∅ ->
  fold_left (fun _ filebase => Some (posixpath.join search filebase)) filebases None
  = Some base ->
  String.eqb base "/" = false ->
  posixpath.normpath (posixpath.join search "..") = search ->
  forall fuel,
    snd (loadCore_from fs unmarshalers fuel self root filebases true search) = None.
Proof.
  intros Hcache Hbase Hne Hparent fuel.
  induction fuel as [|fuel IH]; cbn [loadCore_from]; [reflexivity|].
  destruct (probe_bases_nothing self search filebases Hcache None) as [Hr Hb].
  destruct (probe_bases fs unmarshalers self search filebases None) as [[evs0 b] r].
  cbn [fst snd] in Hr, Hb. subst r. rewrite Hb, Hbase, Hne, Hparent.
  destruct (loadCore_from _ _ fuel _ _ _ _ _). exact IH.
Qed.

(** With nothing to find, an iteration that does not stop moves the
    search to the parent directory. *)
Lemma loadCore_from_step_up self root filebases search base fuel :
  cache self = ∅ ->
  fold_left (fun _ filebase => Some (posixpath.join search filebase)) filebases None
  = Some base ->
  String.eqb base "/" = false ->
  snd (loadCore_from fs unmarshalers (S fuel) self root filebases true search)
  = snd (loadCore_from fs unmarshalers fuel self root filebases true
           (posixpath.normpath (posixpath.join search ".."))).
Proof.
  intros Hcache Hbase Hne. cbn [loadCore_from].
  destruct (probe_bases_nothing self search filebases Hcache None) as [Hr Hb].
  destruct (probe_bases fs unmarshalers self search filebases None) as [[evs0 b] r].
  cbn [fst snd] in Hr, Hb. subst r. rewrite Hb, Hbase, Hne.
  destruct (loadCore_from _ _ fuel _ _ _ _ _). reflexivity.
Qed.

End LoaderReads.

(** C6: started at [/proj/sub] on a disk without any descriptor, with an
    empty cache, the dependency-mode search does not end within any number
    of iterations: it walks up to [/] and stays there, as the stop test
    compares the last candidate path, not the directory, with ["/"]; no
    "package not found" error is raised. *)
Theorem C6_dependency_search_never_ends unmarshalers fuel :
  snd (loadDependency Samples.empty_disk unmarshalers "Coconut" "Cocopack"
         fuel new_Loader "/proj/sub") = None.
Proof.
  unfold loadDependency, loadCore.
  destruct fuel as [|[|fuel]]; [reflexivity | |].
  - erewrite loadCore_from_step_up; reflexivity.
  - erewrite !loadCore_from_step_up; try reflexivity.
    eapply loadCore_from_stuck; reflexivity.
Qed.

(** C8: when a run of the resolver parses a descriptor file [p] to a
    descriptor without a name, the run ends there (the parse is its last
    event) and raises the error that names [p]; the cache is left as it
    was, and no "package not found" error is reported. *)
Theorem C8_missing_name_is_fatal fs unmarshalers fuel self root filebases upwards
        evs out p d :
  loadCore fs unmarshalers fuel self root filebases upwards = (evs, out) ->
  List.In (Unmarshal p (Ok d)) evs ->
  pack.d_name d = None ->
  out = Some (self, Raise (missing_name p)) /\
  (exists pre, evs = (pre ++ [CacheGet p; ReadFile p; Unmarshal p (Ok d)])%list) /\
  missing_name p <> no_package_found root.
Proof.
  intros Hrun Hin Hname.
  assert (Hskip : forall l, Forall (skipped self) l -> ~ List.In (Unmarshal p (Ok d)) l).
  { intros l Hall Hl.
    rewrite Stdlib.Lists.List.Forall_forall in Hall.
    destruct (Hall _ Hl) as [_ [x Hx]]. discriminate. }
  apply loadCore_shape in Hrun.
  inversion Hrun as [? Hall|? ? Hall|pre last_ q um r Hall Hprobe Hne];
    subst; try (exfalso; exact (Hskip _ Hall Hin)).
  apply in_app_or in Hin as [Hin|Hin]; [exfalso; exact (Hskip _ Hall Hin)|].
  unfold probe in Hprobe.
  destruct (cache self !! q).
  { inversion Hprobe; subst. destruct Hin as [|[]]; discriminate. }
  destruct (fs q) as [raw|].
  2:{ inversion Hprobe; subst. destruct Hin as [|[|[]]]; discriminate. }
  assert (Hparse : q = p /\ um raw = Ok d).
  { destruct (um raw) as [d1|e];
      [destruct (pack.d_name d1) as [n|]; [destruct (truthy n)|] | destruct e];
      inversion Hprobe; subst;
      destruct Hin as [|[|[Hev|[]]]]; try discriminate;
      inversion Hev; auto. }
  destruct Hparse as [-> Hum]. rewrite Hum, Hname in Hprobe.
  inversion Hprobe; subst.
  split; [reflexivity|]. split; [exists pre; reflexivity | discriminate].
Qed.

(** Below [/proj/sub] the descriptor [Cocopack.json] has no name, and a good
    descriptor lies in [/proj]: the search from [/proj/sub] fails on the
    former. *)
Lemma C8_missing_name_is_fatal_witness :
  exists evs out,
    loadDependency Samples.disk Samples.toy_unmarshalers "Coconut" "Cocopack"
      5 new_Loader "/proj/sub" = (evs, out) /\
    (out = Some (new_Loader, Raise (missing_name "/proj/sub/Cocopack.json")) /\
     (exists pre,
         evs = (pre ++ [CacheGet "/proj/sub/Cocopack.json";
                        ReadFile "/proj/sub/Cocopack.json";
                        Unmarshal "/proj/sub/Cocopack.json" (Ok Samples.nameless)])%list) /\
     missing_name "/proj/sub/Cocopack.json" <> no_package_found "/proj/sub").
Proof.
  eexists _, _. split.
  - vm_compute. reflexivity.
  - apply (C8_missing_name_is_fatal Samples.disk Samples.toy_unmarshalers 5 new_Loader
             "/proj/sub" ["Coconut"; "Cocopack"] true).
    + vm_compute. reflexivity.
    + simpl. auto 10.
    + reflexivity.
Defined.

(** A run that comes upon a cached path returns the cached package, after
    probes that found nothing. *)
Lemma loadCore_cache_hit fs unmarshalers fuel self root filebases upwards evs out p pkg :
  cache self !! p = Some pkg ->
  loadCore fs unmarshalers fuel self root filebases upwards = (evs, out) ->
  List.In (CacheGet p) evs ->
  out = Some (self, Ok pkg) /\
  exists pre, evs = (pre ++ [CacheGet p])%list /\ Forall (skipped self) pre.
Proof.
  intros Hcached Hrun Hin.
  assert (Hskip : forall l, Forall (skipped self) l -> ~ List.In (CacheGet p) l).
  { intros l Hall Hl.
    rewrite Stdlib.Lists.List.Forall_forall in Hall.
    specialize (Hall _ Hl). simpl in Hall. congruence. }
  apply loadCore_shape in Hrun.
  inversion Hrun as [? Hall|? ? Hall|pre last_ q um r Hall Hprobe Hne];
    subst; try (exfalso; exact (Hskip _ Hall Hin)).
  apply in_app_or in Hin as [Hin|Hin]; [exfalso; exact (Hskip _ Hall Hin)|].
  assert (q = p) as ->.
  { unfold probe in Hprobe.
    destruct (cache self !! q); [|destruct (fs q) as [raw|]].
    - inversion Hprobe; subst. destruct Hin as [Hev|[]]. now inversion Hev.
    - destruct (um raw) as [d1|e];
        [destruct (pack.d_name d1) as [n|]; [destruct (truthy n)|] | destruct e];
        inversion Hprobe; subst;
        destruct Hin as [Hev|[|[|[]]]]; try discriminate; now inversion Hev.
    - inversion Hprobe; subst.
      destruct Hin as [Hev|[|[]]]; try discriminate; now inversion Hev. }
  unfold probe in Hprobe. rewrite Hcached in Hprobe. inversion Hprobe; subst.
  split; [reflexivity|]. exists pre. split; [reflexivity | assumption].
Qed.

(** A run that parses a descriptor and returns a package has memoized that
    package under the parsed path. *)
Lemma loadCore_memoizes fs unmarshalers fuel self root filebases upwards evs self' pkg p d :
  loadCore fs unmarshalers fuel self root filebases upwards = (evs, Some (self', Ok pkg)) ->
  List.In (Unmarshal p (Ok d)) evs ->
  self' = mkLoader (<[p := pkg]> (cache self)).
Proof.
  intros Hrun Hin.
  assert (Hskip : forall l, Forall (skipped self) l -> ~ List.In (Unmarshal p (Ok d)) l).
  { intros l Hall Hl.
    rewrite Stdlib.Lists.List.Forall_forall in Hall.
    destruct (Hall _ Hl) as [_ [x Hx]]. discriminate. }
  apply loadCore_shape in Hrun.
  inversion Hrun as [? Hall|? ? Hall|pre last_ q um r Hall Hprobe Hne Hevs Hout];
    subst; try (exfalso; exact (Hskip _ Hall Hin)).
  apply in_app_or in Hin as [Hin|Hin]; [exfalso; exact (Hskip _ Hall Hin)|].
  unfold probe in Hprobe.
  destruct (cache self !! q).
  { inversion Hprobe; subst. destruct Hin as [|[]]; discriminate. }
  destruct (fs q) as [raw|].
  2:{ inversion Hprobe; subst. destruct Hin as [|[|[]]]; discriminate. }
  destruct (um raw) as [d1|e];
    [destruct (pack.d_name d1) as [n|]; [destruct (truthy n)|] | destruct e];
    inversion Hprobe; subst; try discriminate Hout; try congruence;
    destruct Hin as [|[|[Hev|[]]]]; try discriminate;
    inversion Hev; subst; simpl in Hout; inversion Hout; reflexivity.
Qed.

(** The project descriptor exists as [/proj/Coconut.json], whose codec
    raises [IOError], and as [/proj/Coconut.yaml], which is parsed and
    memoized.  Resolving the project a second time probes the memoized path
    and returns the same package, but before that it reads the first file
    and hands it to its codec once more. *)
Lemma C9_counterexample :
  let load self :=
    loadProject Samples.two_format_disk Samples.mixed_unmarshalers "Coconut" 1 self "/proj" in
  exists evs1 self',
    load new_Loader = (evs1, Some (self', Ok Samples.proj_pkg)) /\
    List.In (Unmarshal "/proj/Coconut.yaml" (Ok Samples.named_proj)) evs1 /\
    cache self' !! "/proj/Coconut.yaml" = Some Samples.proj_pkg /\
    load self'
    = ([CacheGet "/proj/Coconut.json";
        ReadFile "/proj/Coconut.json";
        Unmarshal "/proj/Coconut.json" (Raise (IOError "cannot decode"));
        CacheGet "/proj/Coconut.yaml"],
       Some (self', Ok Samples.proj_pkg)).
Proof.
  cbv zeta. eexists _, _. split; [vm_compute; reflexivity|].
  split; [simpl; auto 10|].
  split; vm_compute; reflexivity.
Qed.

(** C9 (amended): after a resolution that parsed the descriptor at [p] and
    returned the package, that package is memoized under [p]; any later
    resolution that comes to probe [p] returns the very same package and
    leaves the loader as it is, without opening, reading or parsing [p]
    again, and without any parse that gives a descriptor.  The candidates
    probed before [p] are tried again: the only files read are ones whose
    codec raises [IOError], which count as not found. *)
Theorem C9_cached_descriptor_not_reloaded
        fs1 unmarshalers1 fuel1 self root1 filebases1 upwards1 evs1 self' pkg p d
        fs2 unmarshalers2 fuel2 root2 filebases2 upwards2 evs2 out2 :
  loadCore fs1 unmarshalers1 fuel1 self root1 filebases1 upwards1
  = (evs1, Some (self', Ok pkg)) ->
  List.In (Unmarshal p (Ok d)) evs1 ->
  loadCore fs2 unmarshalers2 fuel2 self' root2 filebases2 upwards2 = (evs2, out2) ->
  List.In (CacheGet p) evs2 ->
  cache self' !! p = Some pkg /\
  out2 = Some (self', Ok pkg) /\
  ~ List.In (OpenFailed p) evs2 /\
  ~ List.In (ReadFile p) evs2 /\
  (forall r, ~ List.In (Unmarshal p r) evs2) /\
  (forall q d', ~ List.In (Unmarshal q (Ok d')) evs2) /\
  (forall q, List.In (ReadFile q) evs2 ->
             exists x, List.In (Unmarshal q (Raise (IOError x))) evs2).
Proof.
  intros Hrun1 Hparsed Hrun2 Hprobed.
  assert (Hcached : cache self' !! p = Some pkg).
  { rewrite (loadCore_memoizes _ _ _ _ _ _ _ _ _ _ _ _ Hrun1 Hparsed).
    apply lookup_insert_eq. }
  pose proof (loadCore_from_read_parsed fs2 unmarshalers2 fuel2 self' root2 filebases2
                upwards2 (posixpath.normpath root2)) as Hreads.
  fold (loadCore fs2 unmarshalers2 fuel2 self' root2 filebases2 upwards2) in Hreads.
  rewrite Hrun2 in Hreads. cbn [fst] in Hreads.
  destruct (loadCore_cache_hit _ _ _ _ _ _ _ _ _ _ _ Hcached Hrun2 Hprobed)
    as [-> (pre & -> & Hpre)].
  rewrite Stdlib.Lists.List.Forall_forall in Hpre.
  assert (Hin : forall ev, List.In ev (pre ++ [CacheGet p])%list ->
                           skipped self' ev \/ ev = CacheGet p).
  { intros ev Hev. apply in_app_or in Hev as [Hev|[<-|[]]]; auto. }
  split; [exact Hcached|]. split; [reflexivity|].
  split; [|split; [|split; [|split]]].
  - intros Hev. destruct (Hin _ Hev) as [Hs|]; [simpl in Hs; congruence | discriminate].
  - intros Hev. destruct (Hin _ Hev) as [Hs|]; [simpl in Hs; congruence | discriminate].
  - intros r Hev. destruct (Hin _ Hev) as [[Hs _]|]; [congruence | discriminate].
  - intros q d' Hev. destruct (Hin _ Hev) as [[_ [x Hx]]|]; discriminate.
  - intros q Hev. destruct (Hreads q Hev) as [r Hr].
    destruct (Hin _ Hr) as [[_ [x ->]]|]; [|discriminate].
    exists x. exact Hr.
Qed.

(** The project descriptor [/proj/Coconut.yaml] is loaded once; a search for
    a dependency from [/proj/other] then walks up to it and is served from
    the cache. *)
Lemma C9_cached_descriptor_not_reloaded_witness :
  exists evs1 self' evs2 out2,
    loadProject Samples.disk Samples.toy_unmarshalers "Coconut" 1 new_Loader "/proj"
    = (evs1, Some (self', Ok Samples.proj_pkg)) /\
    loadDependency Samples.disk Samples.toy_unmarshalers "Coconut" "Cocopack" 5 self'
      "/proj/other" = (evs2, out2) /\
    (cache self' !! "/proj/Coconut.yaml" = Some Samples.proj_pkg /\
     out2 = Some (self', Ok Samples.proj_pkg) /\
     ~ List.In (OpenFailed "/proj/Coconut.yaml") evs2 /\
     ~ List.In (ReadFile "/proj/Coconut.yaml") evs2 /\
     (forall r, ~ List.In (Unmarshal "/proj/Coconut.yaml" r) evs2) /\
     (forall q d', ~ List.In (Unmarshal q (Ok d')) evs2) /\
     (forall q, List.In (ReadFile q) evs2 ->
                exists x, List.In (Unmarshal q (Raise (IOError x))) evs2)).
Proof.
  eexists _, _, _, _. split; [vm_compute; reflexivity|].
  split; [vm_compute; reflexivity|].
  eapply (C9_cached_descriptor_not_reloaded
           Samples.disk Samples.toy_unmarshalers 1 new_Loader "/proj" ["Coconut"] false
           _ _ _ _ Samples.named_proj
           Samples.disk Samples.toy_unmarshalers 5 "/proj/other" ["Coconut"; "Cocopack"]
           true).
  - vm_compute. reflexivity.
  - simpl. auto 10.
  - vm_compute. reflexivity.
  - simpl. auto 20.
Defined.

(** * Further properties of the lowering pass *)

(** ** Expressions *)

(** X1: a lowered expression carries the position of the node it comes
    from: the node's range with the columns made 1-based, in the file of the
    module. *)
Theorem X1_expression_keeps_position ctx node e :
  transform_expr ctx node = Ok e ->
  Expression_loc e = loc_from ctx (Some (py_ast.expr_loc node)).
Proof.
  destruct node; cbn [transform_expr py_ast.expr_loc];
    unfold not_yet_implemented, transform_Attribute, transform_Call, transform_Compare,
      transform_IfExp, transform_Name, transform_NameConstant, transform_Num,
      transform_Str;
    try discriminate.
  - destruct ctx0; [discriminate|].
    destruct (transform_expr ctx node); [|discriminate]. now intros [= <-].
  - destruct (transform_expr ctx node); [|discriminate]. now intros [= <-].
  - destruct ops as [|[] [|]]; try discriminate;
      destruct comparators as [|c [|]]; try discriminate;
      destruct (transform_expr ctx node); try discriminate; cbn [bind];
      try destruct (transform_expr ctx c); try discriminate; now intros [= <-].
  - destruct (transform_expr ctx node1); [|discriminate].
    destruct (transform_expr ctx node2); [|discriminate].
    destruct (transform_expr ctx node3); [|discriminate]. now intros [= <-].
  - destruct ctx0; [discriminate|]. now intros [= <-].
  - destruct (eq_str value "None"); [now intros [= <-]|].
    destruct (eq_str value "True"); [now intros [= <-]|].
    destruct (eq_str value "False"); [now intros [= <-]|discriminate].
  - now intros [= <-].
Qed.

Lemma X1_expression_keeps_position_witness :
  exists e,
    transform_expr (Samples.ctx_of []) Samples.call_f_x = Ok e /\
    Expression_loc e
    = Some (ast.mkLocation "m.py" (ast.mkPosition 1 1) (Some (ast.mkPosition 1 5))).
Proof.
  eexists. split; [reflexivity|].
  apply (X1_expression_keeps_position (Samples.ctx_of []) Samples.call_f_x).
  reflexivity.
Defined.

(** When an expression lowers. *)
Lemma transform_expr_is_ok ctx node : is_ok (transform_expr ctx node) = lowers node.
Proof.
  revert node. fix IH 1. intros node.
  destruct node; cbn [transform_expr lowers];
    unfold not_yet_implemented, transform_Attribute, transform_Call, transform_Compare,
      transform_IfExp, transform_Name, transform_NameConstant, transform_Num,
      transform_Str;
    try reflexivity.
  - destruct ctx0; [reflexivity|]. rewrite <- (IH node).
    destruct (transform_expr ctx node); reflexivity.
  - rewrite <- (IH node). destruct (transform_expr ctx node); reflexivity.
  - destruct ops as [|op [|]]; [reflexivity| |reflexivity].
    destruct comparators as [|c [|]]; [reflexivity| |reflexivity].
    rewrite <- (IH node), <- (IH c).
    destruct (transform_expr ctx node); [|reflexivity].
    destruct op; cbn [bind is_ok andb]; try reflexivity;
      destruct (transform_expr ctx c); reflexivity.
  - rewrite <- (IH node1), <- (IH node2), <- (IH node3).
    destruct (transform_expr ctx node1); [|reflexivity].
    destruct (transform_expr ctx node2); [|reflexivity].
    destruct (transform_expr ctx node3); reflexivity.
  - destruct ctx0; reflexivity.
  - destruct (eq_str value "None"); [reflexivity|].
    destruct (eq_str value "True"); [reflexivity|].
    destruct (eq_str value "False"); reflexivity.
Qed.

(** X2: lowering an expression returns exactly on the trees [lowers]
    accepts, and raises on every other: anywhere but in the arguments of a
    call, one node of another kind (a number, an operator, a container, a
    subscript, ...), a chained or membership comparison, or a node with a
    context set makes the whole expression fail, and the arguments of a
    call are never looked at.  A name constant is accepted only when its
    value is the string [None], [True] or [False]; one holding the object
    [None], [True] or [False] makes the expression fail as well. *)
Theorem X2_expression_lowers_iff ctx node :
  is_ok (transform_expr ctx node) = lowers node.
Proof. apply transform_expr_is_ok. Qed.

(** X3: an identity comparison lowers to the very expression the equality
    comparison of the same operands lowers to, the binary operation with the
    one "equal" operator, and likewise [is not] and [!=] both give the one
    "not equal" operator: the IR does not tell them apart. *)
Theorem X3_identity_lowers_as_equality ctx left_ right_ loc l r :
  transform_expr ctx left_ = Ok l ->
  transform_expr ctx right_ = Ok r ->
  let eqeq := ast.BinaryOperatorExpression l ast.binop_eqeq r (loc_from ctx (Some loc)) in
  let noteq := ast.BinaryOperatorExpression l ast.binop_noteq r (loc_from ctx (Some loc)) in
  transform_expr ctx (py_ast.Compare left_ [py_ast.Is] [right_] loc) = Ok eqeq /\
  transform_expr ctx (py_ast.Compare left_ [py_ast.Eq] [right_] loc) = Ok eqeq /\
  transform_expr ctx (py_ast.Compare left_ [py_ast.IsNot] [right_] loc) = Ok noteq /\
  transform_expr ctx (py_ast.Compare left_ [py_ast.NotEq] [right_] loc) = Ok noteq.
Proof.
  intros Hl Hr. cbn [transform_expr]. unfold transform_Compare.
  rewrite Hl, Hr. repeat split; reflexivity.
Qed.

Lemma X3_identity_lowers_as_equality_witness :
  let a := py_ast.Name "a" None (Samples.at_ 1 0 1) in
  let b := py_ast.Name "b" None (Samples.at_ 1 5 6) in
  exists e,
    transform_expr (Samples.ctx_of []) (py_ast.Compare a [py_ast.Is] [b] (Samples.at_ 1 0 6))
    = Ok e /\
    transform_expr (Samples.ctx_of []) (py_ast.Compare a [py_ast.Eq] [b] (Samples.at_ 1 0 6))
    = Ok e.
Proof.
  cbv zeta. eexists.
  pose proof (X3_identity_lowers_as_equality (Samples.ctx_of [])
                (py_ast.Name "a" None (Samples.at_ 1 0 1))
                (py_ast.Name "b" None (Samples.at_ 1 5 6))
                (Samples.at_ 1 0 6) _ _ eq_refl eq_refl) as (H1 & H2 & _).
  split; [exact H1 | exact H2].
Defined.

(** ** Statements *)

(** A computation that keeps the context returns in the context it was
    started in. *)
Lemma keeps_ctx_run {A} (m : M A) ctx : keeps_ctx m -> m ctx = (ctx, snd (m ctx)).
Proof. intros H. specialize (H ctx). destruct (m ctx). simpl in *. now subst. Qed.

Lemma transform_stmt_run node ctx :
  transform_stmt node ctx = (ctx, snd (transform_stmt node ctx)).
Proof. apply keeps_ctx_run, keeps_transform_stmt. Qed.

Lemma transform_block_stmts_run nodes ctx :
  transform_block_stmts transform_stmt nodes ctx
  = (ctx, snd (transform_block_stmts transform_stmt nodes ctx)).
Proof.
  apply keeps_ctx_run, keeps_transform_block_stmts.
  apply Stdlib.Lists.List.Forall_forall. intros node _. apply keeps_transform_stmt.
Qed.

(** The statements of a lowered list, one by one. *)
Lemma for_each_stmts nodes :
  forall ctx ctx' stmts,
    for_each transform_stmt nodes ctx = (ctx', Ok stmts) ->
    Forall2 (fun node s => transform_stmt node ctx = (ctx, Ok s)) nodes stmts.
Proof.
  induction nodes as [|node nodes IH]; intros ctx ctx' stmts; cbn [for_each].
  - intros [= <- <-]. constructor.
  - unfold bindM. rewrite (transform_stmt_run node ctx).
    destruct (snd (transform_stmt node ctx)) as [s|e] eqn:Hs; [|discriminate].
    destruct (for_each transform_stmt nodes ctx) as [c [ss|e]] eqn:Hss; [|discriminate].
    intros [= <- <-]. constructor; [|eapply IH; exact Hss].
    rewrite (transform_stmt_run node ctx), Hs. reflexivity.
Qed.

Lemma for_each_is_ok nodes ctx :
  is_ok (snd (for_each transform_stmt nodes ctx))
  = forallb (fun node => is_ok (snd (transform_stmt node ctx))) nodes.
Proof.
  induction nodes as [|node nodes IH]; cbn [for_each forallb]; [reflexivity|].
  unfold bindM. rewrite (transform_stmt_run node ctx).
  destruct (snd (transform_stmt node ctx)) as [s|e]; [|reflexivity].
  cbn [is_ok andb]. rewrite <- IH.
  rewrite (keeps_ctx_run (for_each transform_stmt nodes) ctx).
  - destruct (snd (for_each transform_stmt nodes ctx)); reflexivity.
  - apply keeps_for_each. apply Stdlib.Lists.List.Forall_forall.
    intros n _. apply keeps_transform_stmt.
Qed.

(** X4: a lowered statement carries the position of the statement it comes
    from, except for an assignment, whose lowered statement has no position
    (the position sits on the assignment operation inside it). *)
Theorem X4_statement_keeps_position node ctx ctx' s :
  transform_stmt node ctx = (ctx', Ok s) ->
  ast.stmt_loc s
  = if is_Assign node then None else loc_from ctx (Some (py_ast.stmt_loc node)).
Proof.
  destruct node; cbn [transform_stmt is_Assign py_ast.stmt_loc];
    unfold expr_in, raise, not_yet_implemented, transform_Break, transform_Continue,
      transform_Pass; try discriminate; try (now intros [= <- <-]).
  - (* Assign *)
    unfold transform_Assign, bindM, expr_in, track_assign, raise, ret.
    destruct targets as [|target [|]]; try discriminate.
    destruct (transform_expr ctx target); [|discriminate].
    destruct (transform_expr ctx value); [|discriminate].
    now intros [= <- <-].
  - (* Expr *)
    unfold transform_Expr, bindM, expr_in.
    destruct (transform_expr ctx value); [|discriminate]. now intros [= <- <-].
  - (* If *)
    unfold transform_If, bindM, expr_in, raise, ret.
    destruct (transform_expr ctx test); [|discriminate].
    rewrite (transform_block_stmts_run body ctx).
    destruct (snd (transform_block_stmts transform_stmt body ctx)); [|discriminate].
    destruct orelse; [|discriminate]. now intros [= <- <-].
  - (* Return *)
    unfold transform_Return, bindM, expr_in, raise.
    destruct value as [v|]; [|discriminate].
    destruct (transform_expr ctx v); [|discriminate]. now intros [= <- <-].
Qed.

Lemma X4_statement_keeps_position_witness :
  exists ctx' s s',
    transform_stmt Samples.pass_1 (Samples.ctx_of []) = (ctx', Ok s) /\
    ast.stmt_loc s
    = Some (ast.mkLocation "m.py" (ast.mkPosition 1 1) (Some (ast.mkPosition 1 5))) /\
    transform_stmt Samples.assign_x_2 (Samples.ctx_of []) = (ctx', Ok s') /\
    ast.stmt_loc s' = None.
Proof.
  eexists _, _, _. split; [reflexivity|]. split.
  - apply (X4_statement_keeps_position Samples.pass_1 (Samples.ctx_of [])
             (Samples.ctx_of [])). reflexivity.
  - split; [reflexivity|].
    apply (X4_statement_keeps_position Samples.assign_x_2 (Samples.ctx_of [])
             (Samples.ctx_of [])). reflexivity.
Defined.

(** Only the lowering of an assignment has no position. *)
Lemma lowered_loc_is_None node ctx s :
  transform_stmt node ctx = (ctx, Ok s) ->
  match ast.stmt_loc s with None => true | Some _ => false end = is_Assign node.
Proof.
  destruct node; cbn [transform_stmt is_Assign];
    unfold expr_in, raise, not_yet_implemented, transform_Break, transform_Continue,
      transform_Pass; try discriminate; try (now intros [= <-]).
  - unfold transform_Assign, bindM, expr_in, track_assign, raise, ret.
    destruct targets as [|target [|]]; try discriminate.
    destruct (transform_expr ctx target); [|discriminate].
    destruct (transform_expr ctx value); [|discriminate].
    now intros [= <-].
  - unfold transform_Expr, bindM, expr_in.
    destruct (transform_expr ctx value); [|discriminate]. now intros [= <-].
  - unfold transform_If, bindM, expr_in, raise, ret.
    destruct (transform_expr ctx test); [|discriminate].
    rewrite (transform_block_stmts_run body ctx).
    destruct (snd (transform_block_stmts transform_stmt body ctx)); [|discriminate].
    destruct orelse; [|discriminate]. now intros [= <-].
  - unfold transform_Return, bindM, expr_in, raise.
    destruct value as [v|]; [|discriminate].
    destruct (transform_expr ctx v); [|discriminate]. now intros [= <-].
Qed.

Lemma Forall2_last {A B} (R : A -> B -> Prop) xs ys :
  Forall2 R xs ys -> forall x y, R x y -> R (List.last xs x) (List.last ys y).
Proof.
  induction 1 as [|x' y' xs ys Hxy Hrest IH]; intros x y Hd; [exact Hd|].
  destruct Hrest; [exact Hxy|]. apply (IH x y Hd).
Qed.

(** [propagate_loc] raises exactly when the first statement has no
    position while the last has one. *)
Lemma propagate_loc_is_ok stmts :
  is_ok (propagate_loc stmts)
  = match stmts with
    | [] => true
    | first :: _ =>
        negb (match ast.stmt_loc first with None => true | Some _ => false end
              && negb (match ast.stmt_loc (List.last stmts first) with
                       | None => true | Some _ => false end))
    end.
Proof.
  destruct stmts as [|first rest]; [reflexivity|].
  unfold propagate_loc.
  destruct (ast.stmt_loc first) as [lf|];
    destruct (ast.stmt_loc (List.last (first :: rest) first)) as [ll|];
    cbn [bind is_ok andb negb]; try reflexivity;
    destruct (truthy (ast.file lf)); reflexivity.
Qed.

(** When a list of statements lowers to a block, given when each of its
    statements lowers. *)
Lemma block_is_ok nodes ctx :
  Forall (fun node => forall ctx, is_ok (snd (transform_stmt node ctx)) = stmt_lowers node)
    nodes ->
  is_ok (snd (transform_block_stmts transform_stmt nodes ctx))
  = block_lowers stmt_lowers nodes.
Proof.
  intros Hnodes. unfold transform_block_stmts, bindM, expr_in, ret, block_lowers.
  assert (Hall : forallb stmt_lowers nodes
                 = is_ok (snd (for_each transform_stmt nodes ctx))).
  { rewrite for_each_is_ok. induction Hnodes as [|n ns Hn _ IH]; [reflexivity|].
    cbn [forallb]. now rewrite Hn, IH. }
  rewrite Hall.
  destruct (for_each transform_stmt nodes ctx) as [c [stmts|e]] eqn:Hrun; [|reflexivity].
  cbn [snd is_ok andb].
  apply for_each_stmts in Hrun.
  transitivity (is_ok (propagate_loc stmts)).
  { destruct (propagate_loc stmts); reflexivity. }
  rewrite propagate_loc_is_ok.
  destruct Hrun as [|node s nodes stmts Hs Hrest]; [reflexivity|].
  rewrite (lowered_loc_is_None _ _ _ Hs).
  assert (Hlast : transform_stmt (List.last (node :: nodes) node) ctx
                  = (ctx, Ok (List.last (s :: stmts) s))).
  { apply (Forall2_last (fun n s => transform_stmt n ctx = (ctx, Ok s))
             (node :: nodes) (s :: stmts)); [now constructor | exact Hs]. }
  rewrite (lowered_loc_is_None _ _ _ Hlast). reflexivity.
Qed.

(** When a statement lowers. *)
Lemma transform_stmt_is_ok node :
  forall ctx, is_ok (snd (transform_stmt node ctx)) = stmt_lowers node.
Proof.
  induction node as [s IH] using stmt_nested_ind. intros ctx.
  destruct s; cbn [transform_stmt stmt_lowers];
    unfold expr_in, raise, not_yet_implemented, transform_Break, transform_Continue,
      transform_Pass; try reflexivity.
  - (* Assign *)
    unfold transform_Assign, bindM, expr_in, track_assign, raise, ret.
    destruct targets as [|target [|]]; try reflexivity.
    rewrite <- !(transform_expr_is_ok ctx).
    destruct (transform_expr ctx target); [|reflexivity].
    destruct (transform_expr ctx value); reflexivity.
  - (* Expr *)
    unfold transform_Expr, bindM, expr_in.
    rewrite <- (transform_expr_is_ok ctx).
    destruct (transform_expr ctx value); reflexivity.
  - (* If *)
    destruct IH as [Hbody _].
    unfold transform_If, bindM, expr_in, raise, ret.
    rewrite (transform_block_stmts_run body ctx).
    pose proof (block_is_ok body ctx Hbody) as Hblock.
    destruct orelse.
    + rewrite <- (transform_expr_is_ok ctx), <- Hblock.
      destruct (transform_expr ctx test); [|reflexivity].
      destruct (snd (transform_block_stmts transform_stmt body ctx)); reflexivity.
    + destruct (transform_expr ctx test); [|reflexivity].
      destruct (snd (transform_block_stmts transform_stmt body ctx)); reflexivity.
  - (* Return *)
    unfold transform_Return, bindM, expr_in, raise.
    destruct value as [v|]; [|reflexivity].
    rewrite <- (transform_expr_is_ok ctx).
    destruct (transform_expr ctx v); reflexivity.
Qed.

(** X5: below the top level, lowering a statement returns exactly on the
    statements [stmt_lowers] accepts: [pass], [break], [continue], expression
    statements, single-target assignments and [return] with a value whose
    expressions lower, and [if] without an else branch whose test lowers and
    whose body forms a block.  Every other statement raises, among them any
    [if] with an else branch, a [return] without a value and a nested
    definition or import. *)
Theorem X5_statement_lowers_iff node ctx :
  is_ok (snd (transform_stmt node ctx)) = stmt_lowers node.
Proof. apply transform_stmt_is_ok. Qed.

(** X6: a list of statements lowers to a block exactly when each statement
    lowers and the list does not begin with an assignment while ending with
    another kind of statement: in that one case the first statement has no
    position, the last has one, and the block handler raises. *)
Theorem X6_block_lowers_iff nodes ctx :
  is_ok (snd (transform_block_stmts transform_stmt nodes ctx))
  = block_lowers stmt_lowers nodes.
Proof.
  apply block_is_ok. apply Stdlib.Lists.List.Forall_forall.
  intros node _. apply transform_stmt_is_ok.
Qed.

(** ** Module assembly *)

Lemma transform_FunctionDef_run tokens name args body loc ctx :
  transform_FunctionDef tokens name args body loc ctx
  = (ctx, snd (transform_FunctionDef tokens name args body loc ctx)).
Proof. apply keeps_ctx_run, keeps_transform_FunctionDef. Qed.

(** What the loop over the top-level statements returns: the members it
    was given and the functions it met, the init list it was given followed
    by the loose statements lowered in order, all in the one context. *)
Lemma transform_toplevel_result tokens body :
  forall members initstmts imports ctx ctx' members' initstmts' imports',
    transform_toplevel tokens body members initstmts imports ctx
    = (ctx', Ok (members', initstmts', imports')) ->
    ctx' = ctx /\
    dom members' = dom members ∪ list_to_set (def_names body) /\
    exists rest,
      initstmts' = (initstmts ++ rest)%list /\
      for_each transform_stmt (List.filter is_loose body) ctx = (ctx, Ok rest).
Proof.
  induction body as [|stmt body IH]; intros members initstmts imports ctx ctx'
    members' initstmts' imports' Hrun.
  - inversion Hrun; subst. split; [reflexivity|]. split; [set_solver|].
    exists []. split; [now rewrite app_nil_r | reflexivity].
  - cbn [transform_toplevel] in Hrun.
    destruct stmt; unfold bindM in Hrun;
      try (rewrite transform_stmt_run in Hrun;
           match type of Hrun with
           | context [snd (transform_stmt ?n ctx)] =>
               destruct (snd (transform_stmt n ctx)) as [x|e] eqn:Hx; [|discriminate]
           end;
           apply IH in Hrun as (-> & Hdom & rest & -> & Hrest);
           split; [reflexivity|]; split; [exact Hdom|];
           exists (x :: rest); split; [now rewrite <- app_assoc|];
           cbn [List.filter is_loose is_def_or_import negb for_each];
           unfold bindM; rewrite transform_stmt_run, Hx, Hrest; reflexivity).
    + (* ClassDef *)
      unfold transform_ClassDef, expr_in, not_yet_implemented in Hrun.
      discriminate Hrun.
    + (* FunctionDef *)
      rewrite transform_FunctionDef_run in Hrun.
      destruct (snd (transform_FunctionDef tokens name args body0 loc ctx))
        as [func_|e] eqn:Hf; [|discriminate].
      assert (Hname : ast.member_name func_ = name).
      { pose proof (transform_FunctionDef_run tokens name args body0 loc ctx) as Hfull.
        rewrite Hf in Hfull. unfold transform_FunctionDef, bindM, expr_in in Hfull.
        destruct (transform_block_stmts _ _ _) as [c [b|e]]; inversion Hfull; subst.
        reflexivity. }
      apply IH in Hrun as (-> & Hdom & rest & -> & Hrest).
      split; [reflexivity|]. split.
      * rewrite Hdom, dom_insert_L, Hname. cbn [def_names flat_map].
        rewrite list_to_set_app_L. set_solver.
      * exists rest. split; [reflexivity | exact Hrest].
    + (* Import *)
      unfold transform_Import, expr_in in Hrun.
      apply IH in Hrun as (-> & Hdom & rest & -> & Hrest).
      split; [reflexivity|]. split; [exact Hdom|].
      exists rest. split; [reflexivity | exact Hrest].
Qed.

(** What registering the globals returns: the members it was given, none of
    them under a global's name, and each global as a dynamic property. *)
Lemma add_properties_result tokens ctx propnames :
  forall members members',
    add_properties tokens ctx propnames members = Ok members' ->
    dom members' = dom members ∪ list_to_set propnames /\
    (forall n, List.In n propnames ->
               members !! n = None /\ members' !! n = Some (property_member tokens n)).
Proof.
  induction propnames as [|propname rest IH]; intros members members' Hrun.
  - inversion Hrun; subst. split; [set_solver|]. intros n [].
  - cbn [add_properties] in Hrun.
    destruct (members !! propname) eqn:Hfree; [discriminate|].
    pose proof (add_properties_spec tokens ctx rest _ _ Hrun) as [Hkeep _].
    apply IH in Hrun as [Hdom Heach]. split.
    + rewrite Hdom, dom_insert_L. cbn [list_to_set foldr]. set_solver.
    + intros n [<-|Hin].
      * split; [exact Hfree|]. apply Hkeep. apply lookup_insert_eq.
      * destruct (Heach n Hin) as [Hnone Hsome]. split; [|exact Hsome].
        rewrite lookup_insert in Hnone. case_decide; [discriminate | exact Hnone].
Qed.

(** What [transform_Module] returns, with the pieces it is made of. *)
Lemma transform_Module_result tokens p name node ctx ctx' m :
  transform_Module tokens p name node ctx = (ctx', Ok m) ->
  exists members rest,
    for_each transform_stmt (List.filter is_loose (py_ast.body node)) ctx = (ctx, Ok rest) /\
    dom members = {[ var_modname ]} ∪ list_to_set (def_names (py_ast.body node)) /\
    add_properties tokens ctx (elements (globals ctx))
      (<[func_entrypoint tokens := entrypoint_member tokens]>
         (<[func_init tokens := init_member tokens (modname_init :: rest)]> members))
    = Ok (ast.members m) /\
    ast.exports m = map_imap (fun k _ => Some (export_of tokens p ctx k)) (ast.members m) /\
    ast.module_name m
    = ast.mkIdentifier (List.last (map fst (map_to_list (ast.members m))) name) None.
Proof.
  unfold transform_Module, bindM, get_ctx, expr_in, ret.
  destruct (transform_toplevel _ _ _ _ _ _) as [c [[[members initstmts] imports]|e]]
    eqn:Htop; [|discriminate].
  apply transform_toplevel_result in Htop as (-> & Hdom & rest & -> & Hrest).
  destruct (add_properties _ _ _ _) as [members'|e] eqn:Hprops; [|discriminate].
  intros [= <- <-]. exists members, rest.
  split; [exact Hrest|]. split.
  { rewrite Hdom, dom_singleton_L. reflexivity. }
  split; [exact Hprops|]. split; reflexivity.
Qed.

(** X7: the member names of a produced module are exactly [__name__], the
    init and entrypoint names, the names of the functions defined at top
    level and the names in the context's globals set. *)
Theorem X7_member_names tokens p name node ctx ctx' m :
  transform_Module tokens p name node ctx = (ctx', Ok m) ->
  dom (ast.members m)
  = {[ var_modname; func_init tokens; func_entrypoint tokens ]}
    ∪ list_to_set (def_names (py_ast.body node)) ∪ globals ctx.
Proof.
  intros Hrun.
  apply transform_Module_result in Hrun as (members & rest & _ & Hdom & Hprops & _).
  apply add_properties_result in Hprops as [Hdom' _].
  rewrite Hdom', !dom_insert_L, Hdom, list_to_set_elements_L. set_solver.
Qed.

Lemma X7_member_names_witness :
  let body := [Samples.def_f; Samples.assign_x; Samples.import_os_path] in
  exists ctx' m,
    transform_Module coconut_tokens Samples.the_pkg "m" (py_ast.mkModule body)
      (Samples.ctx_of body) = (ctx', Ok m) /\
    dom (ast.members m)
    = {[ var_modname; func_init coconut_tokens; func_entrypoint coconut_tokens ]}
      ∪ list_to_set (def_names body) ∪ globals (Samples.ctx_of body).
Proof.
  cbv zeta. eexists _, _. split.
  - vm_compute. reflexivity.
  - apply (X7_member_names coconut_tokens Samples.the_pkg "m"
             (py_ast.mkModule [Samples.def_f; Samples.assign_x; Samples.import_os_path])
             (Samples.ctx_of [Samples.def_f; Samples.assign_x; Samples.import_os_path])
             (Samples.ctx_of [Samples.def_f; Samples.assign_x; Samples.import_os_path])).
    vm_compute. reflexivity.
Defined.

(** X8: the body of the init member of a produced module is the block of
    the synthesized [__name__] assignment followed by the lowerings of the
    loose top-level statements (those that are neither function definitions
    nor imports), in source order. *)
Theorem X8_init_body_in_source_order tokens p name node ctx ctx' m :
  func_init tokens <> func_entrypoint tokens ->
  transform_Module tokens p name node ctx = (ctx', Ok m) ->
  exists rest,
    for_each transform_stmt (List.filter is_loose (py_ast.body node)) ctx = (ctx, Ok rest) /\
    ast.members m !! func_init tokens = Some (init_member tokens (modname_init :: rest)).
Proof.
  intros Hne Hrun.
  apply transform_Module_result in Hrun as (members & rest & Hrest & _ & Hprops & _).
  exists rest. split; [exact Hrest|].
  apply add_properties_spec in Hprops as [Hkeep _]. apply Hkeep.
  rewrite lookup_insert_ne by congruence. apply lookup_insert_eq.
Qed.

Lemma X8_init_body_in_source_order_witness :
  let body := [Samples.pass_1; Samples.def_f; Samples.assign_x_2] in
  exists ctx' m s1 s2,
    transform_Module coconut_tokens Samples.the_pkg "m" (py_ast.mkModule body)
      (Samples.ctx_of body) = (ctx', Ok m) /\
    transform_stmt Samples.pass_1 (Samples.ctx_of body) = (Samples.ctx_of body, Ok s1) /\
    transform_stmt Samples.assign_x_2 (Samples.ctx_of body) = (Samples.ctx_of body, Ok s2) /\
    ast.members m !! ".init" = Some (init_member coconut_tokens [modname_init; s1; s2]).
Proof.
  cbv zeta. eexists _, _, _, _. split; [vm_compute; reflexivity|].
  split; [reflexivity|]. split; [reflexivity|].
  destruct (X8_init_body_in_source_order coconut_tokens Samples.the_pkg "m"
              (py_ast.mkModule [Samples.pass_1; Samples.def_f; Samples.assign_x_2])
              (Samples.ctx_of [Samples.pass_1; Samples.def_f; Samples.assign_x_2])
              (Samples.ctx_of [Samples.pass_1; Samples.def_f; Samples.assign_x_2]) _
              ltac:(vm_compute; discriminate) ltac:(vm_compute; reflexivity))
    as (rest & Hrest & Hinit).
  vm_compute in Hrest. injection Hrest as <-. exact Hinit.
Defined.

(** X9: in a produced module every member has one export, under the same
    name, holding that name and the token made of the package name, the
    module name and the member name joined by the delimiter; and there is
    no export without a member. *)
Theorem X9_exports_follow_members tokens p name node ctx ctx' m k :
  transform_Module tokens p name node ctx = (ctx', Ok m) ->
  ast.exports m !! k
  = (fun _ => ast.mkExport (ast.mkIdentifier k None)
                (ast.mkToken ((pack.name p ++ delim tokens ++ spec_name (mod_ ctx))
                              ++ delim tokens ++ k) None))
      <$> (ast.members m !! k).
Proof.
  intros Hrun.
  apply transform_Module_result in Hrun as (members & rest & _ & _ & _ & Hexports & _).
  rewrite Hexports, map_lookup_imap.
  destruct (ast.members m !! k); reflexivity.
Qed.

Lemma X9_exports_follow_members_witness :
  exists ctx' m,
    transform_Module coconut_tokens Samples.the_pkg "m" (py_ast.mkModule [Samples.def_f])
      (Samples.ctx_of [Samples.def_f]) = (ctx', Ok m) /\
    ast.exports m !! "f"
    = Some (ast.mkExport (ast.mkIdentifier "f" None) (ast.mkToken "pkg:m:f" None)) /\
    ast.exports m !! "g" = None.
Proof.
  eexists _, _. split; [vm_compute; reflexivity|].
  split.
  - rewrite (X9_exports_follow_members coconut_tokens Samples.the_pkg "m"
               (py_ast.mkModule [Samples.def_f]) (Samples.ctx_of [Samples.def_f])
               (Samples.ctx_of [Samples.def_f]) _ "f" ltac:(vm_compute; reflexivity)).
    vm_compute. reflexivity.
  - vm_compute. reflexivity.
Defined.

(** X10: a module is produced only when no name in the context's globals
    set is [__name__], the init or entrypoint name or the name of a function
    defined at top level, and each name in the set is then a member that is
    a property of the dynamic type. *)
Theorem X10_globals_become_properties tokens p name node ctx ctx' m n :
  transform_Module tokens p name node ctx = (ctx', Ok m) ->
  n ∈ globals ctx ->
  ast.members m !! n = Some (property_member tokens n) /\
  n ∉ ({[ var_modname; func_init tokens; func_entrypoint tokens ]}
       ∪ list_to_set (def_names (py_ast.body node)) : gset string).
Proof.
  intros Hrun Hn.
  apply transform_Module_result in Hrun as (members & rest & _ & Hdom & Hprops & _).
  apply add_properties_result in Hprops as [_ Heach].
  destruct (Heach n) as [Hnone Hsome].
  { apply list_elem_of_In, elem_of_elements. exact Hn. }
  split; [exact Hsome|].
  apply not_elem_of_dom in Hnone. rewrite !dom_insert_L, Hdom in Hnone. set_solver.
Qed.

Lemma X10_globals_become_properties_witness :
  exists ctx' m,
    transform_Module coconut_tokens Samples.the_pkg "m" (py_ast.mkModule [Samples.def_f])
      (ctx_with_globals {[ "x" ]}) = (ctx', Ok m) /\
    ast.members m !! "x" = Some (property_member coconut_tokens "x").
Proof.
  eexists _, _. split; [vm_compute; reflexivity|].
  refine (proj1 (X10_globals_become_properties coconut_tokens Samples.the_pkg "m"
                   (py_ast.mkModule [Samples.def_f]) (ctx_with_globals {[ "x" ]})
                   (ctx_with_globals {[ "x" ]}) _ "x" _ _)).
  - vm_compute. reflexivity.
  - change ("x" ∈ ({[ "x" ]} : gset string)). apply elem_of_singleton_2. reflexivity.
Defined.

(** When a function definition lowers: when its body forms a block. *)
Lemma transform_FunctionDef_is_ok tokens name args body loc ctx :
  is_ok (snd (transform_FunctionDef tokens name args body loc ctx))
  = block_lowers stmt_lowers body.
Proof.
  unfold transform_FunctionDef, bindM, expr_in.
  rewrite transform_block_stmts_run.
  rewrite <- (block_is_ok body
                (mkContext (mod_ ctx) (globals ctx)
                   (Some (py_ast.FunctionDef name args body loc)))).
  - destruct (snd (transform_block_stmts transform_stmt body _)); reflexivity.
  - apply Stdlib.Lists.List.Forall_forall. intros node _. apply transform_stmt_is_ok.
Qed.

Lemma transform_toplevel_run tokens body members initstmts imports ctx :
  transform_toplevel tokens body members initstmts imports ctx
  = (ctx, snd (transform_toplevel tokens body members initstmts imports ctx)).
Proof. apply keeps_ctx_run, keeps_transform_toplevel. Qed.

(** When the loop over the top-level statements returns. *)
Lemma transform_toplevel_is_ok tokens body :
  forall members initstmts imports ctx,
    is_ok (snd (transform_toplevel tokens body members initstmts imports ctx))
    = forallb toplevel_lowers body.
Proof.
  induction body as [|stmt body IH]; intros members initstmts imports ctx;
    [reflexivity|].
  cbn [transform_toplevel forallb].
  destruct stmt; unfold bindM;
    try (rewrite transform_stmt_run;
         match goal with
         | |- context [snd (transform_stmt ?n ctx)] =>
             change (toplevel_lowers n) with (stmt_lowers n);
             rewrite <- (transform_stmt_is_ok n ctx);
             destruct (snd (transform_stmt n ctx)); [apply IH | reflexivity]
         end).
  - (* ClassDef *) reflexivity.
  - (* FunctionDef *)
    rewrite transform_FunctionDef_run.
    change (toplevel_lowers (py_ast.FunctionDef name args body0 loc))
      with (block_lowers stmt_lowers body0).
    rewrite <- (transform_FunctionDef_is_ok tokens name args body0 loc ctx).
    destruct (snd (transform_FunctionDef tokens name args body0 loc ctx));
      [apply IH | reflexivity].
  - (* Import *)
    unfold transform_Import, expr_in. apply IH.
Qed.

(** X11: started with an empty globals set, as every pass is, lowering a
    module returns exactly when each top-level statement can be lowered: an
    import, a function definition whose body forms a block, or a statement
    that lowers; a class definition, or one statement that does not lower,
    makes the whole module fail. *)
Theorem X11_module_lowers_iff tokens p name node ctx :
  globals ctx = ∅ ->
  is_ok (snd (transform_Module tokens p name node ctx))
  = forallb toplevel_lowers (py_ast.body node).
Proof.
  intros Hglobals. unfold transform_Module, bindM, get_ctx, expr_in, ret.
  rewrite transform_toplevel_run, <- (transform_toplevel_is_ok tokens (py_ast.body node)
    {[ var_modname := ast.ModuleProperty (ident ctx var_modname None)
                        (type_token ctx (type_dynamic tokens) None) ]}
    [modname_init] [] ctx).
  destruct (snd (transform_toplevel _ _ _ _ _ _)) as [[[members initstmts] imports]|e];
    [|reflexivity].
  rewrite Hglobals, elements_empty. reflexivity.
Qed.

Lemma X11_module_lowers_iff_witness :
  let good := [Samples.def_f; Samples.import_os_path; Samples.assign_x] in
  let bad := [Samples.def_f; py_ast.ClassDef "C" (Samples.at_ 3 0 8)] in
  is_ok (snd (transform_Module coconut_tokens Samples.the_pkg "m" (py_ast.mkModule good)
                (Samples.ctx_of good))) = true /\
  is_ok (snd (transform_Module coconut_tokens Samples.the_pkg "m" (py_ast.mkModule bad)
                (Samples.ctx_of bad))) = false.
Proof.
  cbv zeta. split.
  - rewrite (X11_module_lowers_iff coconut_tokens Samples.the_pkg "m"
               (py_ast.mkModule [Samples.def_f; Samples.import_os_path; Samples.assign_x])
               (Samples.ctx_of [Samples.def_f; Samples.import_os_path; Samples.assign_x])
               eq_refl).
    reflexivity.
  - rewrite (X11_module_lowers_iff coconut_tokens Samples.the_pkg "m"
               (py_ast.mkModule [Samples.def_f; py_ast.ClassDef "C" (Samples.at_ 3 0 8)])
               (Samples.ctx_of [Samples.def_f; py_ast.ClassDef "C" (Samples.at_ 3 0 8)])
               eq_refl).
    reflexivity.
Defined.

(** X12: lowering leaves the transform context as it found it, whether it
    returns or raises: a statement, a function definition (the function it
    marks as current while its body is lowered is put back on both exits)
    and a whole module end in the context they were started in. *)
Theorem X12_context_is_kept tokens p name node args body loc stmt ctx :
  fst (transform_stmt stmt ctx) = ctx /\
  fst (transform_FunctionDef tokens name args body loc ctx) = ctx /\
  fst (transform_Module tokens p name node ctx) = ctx.
Proof.
  split; [apply keeps_transform_stmt|].
  split; [apply keeps_transform_FunctionDef | apply keeps_transform_Module].
Qed.

(** ** The pass over a list of modules *)

(** The loop of [transform] only adds to the module table. *)
Lemma transform_modules_grows tokens modules :
  forall p p' r,
    transform_modules tokens modules p = (p', r) ->
    pack.modules p ⊆ pack.modules p' /\ pack.name p' = pack.name p.
Proof.
  induction modules as [|module modules IH]; intros p p' r; cbn [transform_modules].
  - intros [= <- <-]. split; reflexivity.
  - destruct (transform_Module _ _ _ _ _) as [c [m|e]].
    2:{ intros [= <- <-]. split; reflexivity. }
    destruct (pack.modules p !! spec_name module) eqn:Hfree.
    { intros [= <- <-]. split; reflexivity. }
    intros Hrun. apply IH in Hrun as [Hsub Hname]. cbn in Hsub, Hname.
    split; [|exact Hname].
    etransitivity; [|exact Hsub]. now apply insert_subseteq.
Qed.

(** X13: whatever the outcome of [transform], the context of the
    transformer is the one it had before the call, the package keeps its
    name, and every module that was in the package's table is still there,
    unchanged: the pass only ever adds modules. *)
Theorem X13_transform_restores_and_grows tokens modules self :
  ctx (fst (transform tokens modules self)) = ctx self /\
  pack.name (pkg (fst (transform tokens modules self))) = pack.name (pkg self) /\
  pack.modules (pkg self) ⊆ pack.modules (pkg (fst (transform tokens modules self))).
Proof.
  unfold transform.
  destruct (transform_modules tokens modules (pkg self)) as [p r] eqn:Hrun.
  apply transform_modules_grows in Hrun as [Hsub Hname].
  cbn [fst ctx pkg]. auto.
Qed.

(** What a run of the loop that returns has put in the table. *)
Lemma transform_modules_ok tokens modules :
  forall p p',
    transform_modules tokens modules p = (p', Ok tt) ->
    dom (pack.modules p')
    = dom (pack.modules p) ∪ list_to_set (map spec_name modules) /\
    NoDup (map spec_name modules) /\
    Forall (fun module =>
              pack.modules p !! spec_name module = None /\
              exists m,
                snd (transform_Module tokens p (spec_name module) (py_module module)
                       (new_Context module)) = Ok m /\
                pack.modules p' !! spec_name module = Some m) modules.
Proof.
  induction modules as [|module modules IH]; intros p p'; cbn [transform_modules].
  - intros [= <-]. split; [set_solver|]. split; constructor.
  - destruct (transform_Module _ _ _ _ _) as [c [m|e]] eqn:Hm; [|discriminate].
    destruct (pack.modules p !! spec_name module) eqn:Hfree; [discriminate|].
    intros Hrun.
    pose proof (transform_modules_grows _ _ _ _ _ Hrun) as [Hsub _].
    apply IH in Hrun as (Hdom & Hnodup & Heach). cbn in Hdom, Hsub.
    rewrite Stdlib.Lists.List.Forall_forall in Heach.
    split; [|split].
    + rewrite Hdom, dom_insert_L. cbn [map list_to_set foldr]. set_solver.
    + cbn [map]. apply NoDup_cons. split; [|exact Hnodup].
      intros Hin. apply list_elem_of_In, in_map_iff in Hin as (module' & Heq & Hin).
      destruct (Heach _ Hin) as [Hnone _]. cbn in Hnone.
      rewrite Heq, lookup_insert_eq in Hnone. discriminate.
    + constructor.
      * split; [exact Hfree|]. exists m. split; [now rewrite Hm|].
        eapply lookup_weaken; [|exact Hsub]. apply lookup_insert_eq.
      * apply Stdlib.Lists.List.Forall_forall. intros module' Hin.
        destruct (Heach _ Hin) as [Hnone (m' & Hm' & Hlook)]. cbn in Hnone.
        split.
        -- rewrite lookup_insert in Hnone. case_decide; [discriminate | exact Hnone].
        -- exists m'. split; [|exact Hlook].
           rewrite <- Hm'. reflexivity.
Qed.

(** X14: when [transform] returns, it returns the package it has updated;
    the names of the modules it was given are pairwise distinct and were not
    in the table before; the table's names are the old ones and these; and
    each module of the list sits in the table under its name, as the module
    it lowers to. *)
Theorem X14_transform_fills_table tokens modules self p' :
  snd (transform tokens modules self) = Ok p' ->
  pkg (fst (transform tokens modules self)) = p' /\
  dom (pack.modules p')
  = dom (pack.modules (pkg self)) ∪ list_to_set (map spec_name modules) /\
  NoDup (map spec_name modules) /\
  Forall (fun module =>
            pack.modules (pkg self) !! spec_name module = None /\
            exists m,
              snd (transform_Module tokens (pkg self) (spec_name module)
                     (py_module module) (new_Context module)) = Ok m /\
              pack.modules p' !! spec_name module = Some m) modules.
Proof.
  unfold transform.
  destruct (transform_modules tokens modules (pkg self)) as [p [[]|e]] eqn:Hrun;
    cbn [fst snd pkg]; [|discriminate].
  intros [= <-]. split; [reflexivity|].
  now apply transform_modules_ok.
Qed.

Lemma X14_transform_fills_table_witness :
  let a := mkModuleSpec "a" "a.py" (py_ast.mkModule [Samples.def_f]) in
  let b := mkModuleSpec "b" "b.py" (py_ast.mkModule [Samples.assign_x]) in
  let self := mkTransformer Samples.the_pkg None in
  exists p',
    snd (transform coconut_tokens [a; b] self) = Ok p' /\
    dom (pack.modules p') = {[ "a"; "b" ]}.
Proof.
  cbv zeta. eexists. split; [vm_compute; reflexivity|].
  destruct (X14_transform_fills_table coconut_tokens
              [mkModuleSpec "a" "a.py" (py_ast.mkModule [Samples.def_f]);
               mkModuleSpec "b" "b.py" (py_ast.mkModule [Samples.assign_x])]
              (mkTransformer Samples.the_pkg None) _
              ltac:(vm_compute; reflexivity)) as (_ & Hdom & _).
  rewrite Hdom. vm_compute. reflexivity.
Defined.

(** A module whose name is taken stops the loop, wherever it stands in the
    list, and its entry in the table is not touched. *)
Lemma transform_modules_duplicate tokens modules :
  forall p module existing,
    List.In module modules ->
    pack.modules p !! spec_name module = Some existing ->
    exists e,
      snd (transform_modules tokens modules p) = Raise e /\
      pack.modules (fst (transform_modules tokens modules p)) !! spec_name module
      = Some existing.
Proof.
  induction modules as [|m0 modules IH]; intros p module existing Hin Htaken;
    [destruct Hin|].
  cbn [transform_modules].
  destruct (transform_Module _ _ _ _ _) as [c [m|e]].
  2:{ exists e. split; [reflexivity | exact Htaken]. }
  destruct (pack.modules p !! spec_name m0) eqn:Hfree.
  { eexists. split; [reflexivity | exact Htaken]. }
  destruct Hin as [<-|Hin]; [congruence|].
  apply IH; [exact Hin|]. cbn [set_modules pack.modules].
  rewrite lookup_insert_ne; [exact Htaken | congruence].
Qed.

(** X15: a list of modules that holds, anywhere, a module whose name is
    already in the package's table is never accepted: [transform] raises,
    the entry under that name is the one that was there, and the context
    is restored.  (Modules that stand before it in the list may have been
    put in the table.)  When it is the first of the list, the transformer
    and its package are left as they were, and the error is that of its
    lowering or, when it lowers, the assertion that the module already
    exists. *)
Theorem X15_duplicate_module_rejected tokens modules module self existing :
  List.In module modules ->
  pack.modules (pkg self) !! spec_name module = Some existing ->
  exists e,
    snd (transform tokens modules self) = Raise e /\
    pack.modules (pkg (fst (transform tokens modules self))) !! spec_name module
    = Some existing /\
    ctx (fst (transform tokens modules self)) = ctx self /\
    (forall rest, modules = module :: rest ->
       fst (transform tokens modules self) = self /\
       (e = AssertionError ("Module " ++ spec_name module ++ " already exists") \/
        snd (transform_Module tokens (pkg self) (spec_name module) (py_module module)
               (new_Context module)) = Raise e)).
Proof.
  intros Hin Htaken.
  destruct (transform_modules_duplicate tokens modules (pkg self) module existing
              Hin Htaken) as (e & Hraise & Hkept).
  exists e. unfold transform.
  destruct (transform_modules tokens modules (pkg self)) as [p r] eqn:Hrun.
  cbn [fst snd pkg ctx] in *. subst r.
  split; [reflexivity|]. split; [exact Hkept|]. split; [reflexivity|].
  intros rest ->. cbn [transform_modules] in Hrun.
  destruct (transform_Module _ _ _ _ _) as [c [m|e']] eqn:Hm.
  - rewrite Htaken in Hrun. injection Hrun as <- <-.
    split; [destruct self; reflexivity | left; reflexivity].
  - injection Hrun as <- <-.
    split; [destruct self; reflexivity | right; reflexivity].
Qed.

(** The table holds [a]; of the list [b; a], [b] is put in the table, and
    [a] is refused and its entry kept. *)
Lemma X15_duplicate_module_rejected_witness :
  let a := mkModuleSpec "a" "a.py" (py_ast.mkModule [Samples.def_f]) in
  let b := mkModuleSpec "b" "b.py" (py_ast.mkModule [Samples.assign_x]) in
  exists p1 existing,
    snd (transform coconut_tokens [a] (mkTransformer Samples.the_pkg None)) = Ok p1 /\
    pack.modules p1 !! "a" = Some existing /\
    snd (transform coconut_tokens [b; a] (mkTransformer p1 None))
    = Raise (AssertionError "Module a already exists") /\
    pack.modules (pkg (fst (transform coconut_tokens [b; a] (mkTransformer p1 None))))
      !! "a" = Some existing.
Proof.
  cbv zeta. eexists _, _. split; [vm_compute; reflexivity|].
  split; [vm_compute; reflexivity|].
  match goal with
  | |- snd (transform _ [?b; ?a] ?self) = _ /\ _ !! _ = Some ?existing =>
      edestruct (X15_duplicate_module_rejected coconut_tokens [b; a] a self existing)
        as (e & Hraise & Hkept & _)
  end.
  - right. left. reflexivity.
  - vm_compute. reflexivity.
  - split; [|exact Hkept].
    rewrite Hraise. pose proof Hraise as Hrun. vm_compute in Hrun.
    injection Hrun as <-. reflexivity.
Defined.

(** ** Imports *)

Lemma string_append_assoc (a b c : string) : (a ++ b) ++ c = a ++ (b ++ c).
Proof.
  induction a as [|x a IH]; [reflexivity|].
  change (String x ((a ++ b) ++ c) = String x (a ++ (b ++ c))). now rewrite IH.
Qed.

Lemma has_dot_app a b : has_dot (a ++ b) = has_dot a || has_dot b.
Proof.
  induction a as [|c a IH]; [reflexivity|].
  change (has_dot (String c (a ++ b)) = has_dot (String c a) || has_dot b).
  cbn [has_dot]. now rewrite IH, orb_assoc.
Qed.

Lemma replace_dots_app tokens a b :
  replace_dots tokens (a ++ b) = replace_dots tokens a ++ replace_dots tokens b.
Proof.
  induction a as [|c a IH]; [reflexivity|].
  change (replace_dots tokens (String c (a ++ b))
          = replace_dots tokens (String c a) ++ replace_dots tokens b).
  cbn [replace_dots]. rewrite IH.
  destruct (Ascii.eqb c "."); [|reflexivity].
  symmetry. apply string_append_assoc.
Qed.

Lemma replace_dots_no_dot tokens a : has_dot a = false -> replace_dots tokens a = a.
Proof.
  induction a as [|c a IH]; [reflexivity|].
  cbn [has_dot replace_dots]. intros H. apply orb_false_elim in H as [Hc Ha].
  rewrite Hc, (IH Ha). reflexivity.
Qed.

Lemma replace_dots_has_dot tokens a :
  has_dot (name_delim tokens) = false -> has_dot (replace_dots tokens a) = false.
Proof.
  intros Hdelim. induction a as [|c a IH]; [reflexivity|].
  cbn [replace_dots]. destruct (Ascii.eqb c ".") eqn:Hc.
  - rewrite has_dot_app, Hdelim, IH. reflexivity.
  - cbn [has_dot]. rewrite Hc, IH. reflexivity.
Qed.

(** X16: an import clause never fails and changes nothing: it yields one
    module token per imported name, each with the position of its name,
    and, the delimiter of module paths holding no dot, no token holds a
    dot. *)
Theorem X16_import_tokens tokens names ctx :
  has_dot (name_delim tokens) = false ->
  exists toks,
    transform_Import tokens names ctx = (ctx, Ok toks) /\
    map ast.module_tok_loc toks
    = map (fun namenode => loc_from ctx (Some (py_ast.alias_loc namenode))) names /\
    Forall (fun tok => has_dot (ast.module_tok tok) = false) toks.
Proof.
  intros Hdelim. eexists. split; [reflexivity|]. split.
  - rewrite map_map. reflexivity.
  - apply Forall_map. apply Stdlib.Lists.List.Forall_forall. intros namenode _.
    cbn [ast.module_tok]. now apply replace_dots_has_dot.
Qed.

Lemma X16_import_tokens_witness :
  exists toks,
    transform_Import coconut_tokens
      [py_ast.mkAlias "os.path" (Samples.at_ 1 7 14); py_ast.mkAlias "sys" (Samples.at_ 1 16 19)]
      (Samples.ctx_of []) = (Samples.ctx_of [], Ok toks) /\
    map ast.module_tok toks = ["os/path"; "sys"] /\
    Forall (fun tok => has_dot (ast.module_tok tok) = false) toks.
Proof.
  destruct (X16_import_tokens coconut_tokens
              [py_ast.mkAlias "os.path" (Samples.at_ 1 7 14);
               py_ast.mkAlias "sys" (Samples.at_ 1 16 19)]
              (Samples.ctx_of []) eq_refl) as (toks & Hrun & _ & Hdots).
  exists toks. split; [exact Hrun|]. split; [|exact Hdots].
  vm_compute in Hrun. injection Hrun as <-. reflexivity.
Defined.

(** X17: the token of a dotted module path is made part by part: a first
    part without a dot stays as it is, its dot becomes the delimiter, and
    the rest is translated in the same way. *)
Theorem X17_dotted_path_token tokens a b :
  has_dot a = false ->
  replace_dots tokens a = a /\
  replace_dots tokens (a ++ "." ++ b) = a ++ name_delim tokens ++ replace_dots tokens b.
Proof.
  intros Ha. split; [now apply replace_dots_no_dot|].
  rewrite replace_dots_app, (replace_dots_no_dot tokens a Ha). reflexivity.
Qed.

Lemma X17_dotted_path_token_witness :
  replace_dots coconut_tokens "os" = "os" /\
  replace_dots coconut_tokens ("os" ++ "." ++ "path.join")
  = "os" ++ "/" ++ replace_dots coconut_tokens "path.join".
Proof. apply (X17_dotted_path_token coconut_tokens "os" "path.join"). reflexivity. Defined.

(** ** The name of a compiled module *)

Lemma rfind_dot_no_dot name : has_dot name = false -> rfind_dot name = -1.
Proof.
  induction name as [|c name IH]; [reflexivity|].
  cbn [has_dot rfind_dot]. intros H. apply orb_false_elim in H as [Hc Hn].
  rewrite (IH Hn), Hc. reflexivity.
Qed.

Lemma rfind_dot_stem stem ext :
  has_dot ext = false ->
  rfind_dot (stem ++ "." ++ ext) = Z.of_nat (String.length stem).
Proof.
  intros Hext. induction stem as [|c stem IH].
  - change (rfind_dot (String "." ext) = 0). cbn [rfind_dot].
    rewrite (rfind_dot_no_dot ext Hext). reflexivity.
  - change (rfind_dot (String c (stem ++ "." ++ ext))
            = Z.of_nat (S (String.length stem))).
    cbn [rfind_dot]. rewrite IH.
    destruct (Z.of_nat (String.length stem) =? -1) eqn:Hneg; lia.
Qed.

Lemma substring_stem stem rest :
  String.substring 0 (String.length stem) (stem ++ rest) = stem.
Proof.
  induction stem as [|c stem IH].
  - destruct rest; reflexivity.
  - change (String.substring 0 (S (String.length stem)) (String c (stem ++ rest))
            = String c stem).
    cbn [String.substring]. now rewrite IH.
Qed.

(** X18: the module name [compile] derives from the relative path of the
    file is the path without its last extension: a path that ends in a dot
    and a dot-free extension gives what stands before that dot (which may
    hold dots itself, or be empty), and a path without a dot is its own
    module name. *)
Theorem X18_module_name_strips_extension stem ext :
  has_dot ext = false ->
  compile_module_name (stem ++ "." ++ ext) = stem /\
  compile_module_name ext = ext.
Proof.
  intros Hext. unfold compile_module_name. split.
  - rewrite (rfind_dot_stem stem ext Hext), Nat2Z.id.
    destruct (Z.of_nat (String.length stem) =? -1) eqn:Hneg.
    { apply Z.eqb_eq in Hneg. exfalso. lia. }
    cbn [negb]. apply substring_stem.
  - rewrite (rfind_dot_no_dot ext Hext). reflexivity.
Qed.

Lemma X18_module_name_strips_extension_witness :
  compile_module_name ("pkg/a.b" ++ "." ++ "py") = "pkg/a.b" /\
  compile_module_name "py" = "py".
Proof. apply (X18_module_name_strips_extension "pkg/a.b" "py"). reflexivity. Defined.

(** * Further properties of the loader *)

(** A parse that did not raise [IOError] is the last thing a run did: the
    path was not cached, the file was read, and the run ended as that probe
    did. *)
Lemma loadCore_parsed fs unmarshalers fuel self root filebases upwards evs out p r :
  loadCore fs unmarshalers fuel self root filebases upwards = (evs, out) ->
  List.In (Unmarshal p r) evs ->
  (forall x, r <> Raise (IOError x)) ->
  exists pre unmarshal raw res,
    evs = (pre ++ [CacheGet p; ReadFile p; Unmarshal p r])%list /\
    cache self !! p = None /\
    fs p = Some raw /\
    unmarshal raw = r /\
    probe fs self p unmarshal = ([CacheGet p; ReadFile p; Unmarshal p r], res) /\
    out = Some (finish self res).
Proof.
  intros Hrun Hin Hr.
  assert (Hskip : forall l, Forall (skipped self) l -> ~ List.In (Unmarshal p r) l).
  { intros l Hall Hl.
    rewrite Stdlib.Lists.List.Forall_forall in Hall.
    destruct (Hall _ Hl) as [_ [x Hx]]. exact (Hr x Hx). }
  apply loadCore_shape in Hrun.
  inversion Hrun as [? Hall|? ? Hall|pre last_ q um res Hall Hprobe Hne];
    subst; try (exfalso; exact (Hskip _ Hall Hin)).
  apply in_app_or in Hin as [Hin|Hin]; [exfalso; exact (Hskip _ Hall Hin)|].
  pose proof Hprobe as Hprobe'. unfold probe in Hprobe.
  destruct (cache self !! q) eqn:Hcache.
  { inversion Hprobe; subst. destruct Hin as [|[]]; discriminate. }
  destruct (fs q) as [raw|] eqn:Hfs.
  2:{ inversion Hprobe; subst. destruct Hin as [|[|[]]]; discriminate. }
  assert (Hlast : last_ = [CacheGet q; ReadFile q; Unmarshal q (um raw)]).
  { destruct (um raw) as [d1|e];
      [destruct (pack.d_name d1) as [n|]; [destruct (truthy n)|] | destruct e];
      inversion Hprobe; reflexivity. }
  subst last_. destruct Hin as [|[|[Hev|[]]]]; try discriminate.
  injection Hev as -> Hum.
  exists pre, um, raw, res. rewrite Hum in *. repeat split; assumption.
Qed.

(** X19: when a run of the resolver parses the file [p] to a descriptor
    with a non-empty name, the run ends there and returns the package with
    that name, the descriptor's description, author, website, license and
    dependencies, and an empty module table; the package is put in the cache
    under [p], which was not cached before. *)
Theorem X19_descriptor_loaded fs unmarshalers fuel self root filebases upwards
        evs out p d n :
  loadCore fs unmarshalers fuel self root filebases upwards = (evs, out) ->
  List.In (Unmarshal p (Ok d)) evs ->
  pack.d_name d = Some n ->
  truthy n = true ->
  out = Some (mkLoader (<[p := package_of d n]> (cache self)), Ok (package_of d n)) /\
  cache self !! p = None /\
  exists pre, evs = (pre ++ [CacheGet p; ReadFile p; Unmarshal p (Ok d)])%list.
Proof.
  intros Hrun Hin Hname Htruthy.
  destruct (loadCore_parsed _ _ _ _ _ _ _ _ _ _ _ Hrun Hin)
    as (pre & um & raw & res & -> & Hcache & Hfs & Hum & Hprobe & ->);
    [discriminate|].
  unfold probe in Hprobe. rewrite Hcache, Hfs, Hum, Hname, Htruthy in Hprobe.
  injection Hprobe as <-.
  split; [reflexivity|]. split; [exact Hcache|]. exists pre. reflexivity.
Qed.

Lemma X19_descriptor_loaded_witness :
  exists evs out,
    loadDependency Samples.disk Samples.toy_unmarshalers "Coconut" "Cocopack" 5
      new_Loader "/proj/other" = (evs, out) /\
    out = Some (mkLoader {[ "/proj/Coconut.yaml" := Samples.proj_pkg ]}, Ok Samples.proj_pkg).
Proof.
  eexists _, _. split; [vm_compute; reflexivity|].
  destruct (X19_descriptor_loaded Samples.disk Samples.toy_unmarshalers 5 new_Loader
              "/proj/other" ["Coconut"; "Cocopack"] true _ _
              "/proj/Coconut.yaml" Samples.named_proj "proj"
              ltac:(vm_compute; reflexivity) ltac:(simpl; auto 30) eq_refl eq_refl)
    as (Hout & _).
  rewrite Hout. reflexivity.
Defined.

(** X20: a descriptor whose name is the empty string is refused like one
    without a name: the run ends with the error naming the file, and the
    cache is left as it was. *)
Theorem X20_empty_name_is_fatal fs unmarshalers fuel self root filebases upwards
        evs out p d n :
  loadCore fs unmarshalers fuel self root filebases upwards = (evs, out) ->
  List.In (Unmarshal p (Ok d)) evs ->
  pack.d_name d = Some n ->
  truthy n = false ->
  n = "" /\ out = Some (self, Raise (missing_name p)).
Proof.
  intros Hrun Hin Hname Hfalsy.
  destruct (loadCore_parsed _ _ _ _ _ _ _ _ _ _ _ Hrun Hin)
    as (pre & um & raw & res & -> & Hcache & Hfs & Hum & Hprobe & ->);
    [discriminate|].
  unfold probe in Hprobe. rewrite Hcache, Hfs, Hum, Hname, Hfalsy in Hprobe.
  injection Hprobe as <-.
  split; [destruct n; [reflexivity | discriminate] | reflexivity].
Qed.

Lemma X20_empty_name_is_fatal_witness :
  exists evs,
    loadProject disk_empty_name empty_name_unmarshalers "Coconut" 1 new_Loader "/proj"
    = (evs, Some (new_Loader, Raise (missing_name "/proj/Coconut.json"))).
Proof.
  eexists.
  destruct (X20_empty_name_is_fatal disk_empty_name empty_name_unmarshalers 1 new_Loader
              "/proj" ["Coconut"] false _ _ "/proj/Coconut.json"
              (pack.mkDescriptor (Some "") None None None None None) ""
              ltac:(vm_compute; reflexivity) ltac:(simpl; auto 30) eq_refl eq_refl)
    as (_ & Hout).
  rewrite <- Hout. vm_compute. reflexivity.
Defined.

(** X21: an exception of a codec other than [IOError] is not taken for a
    missing file: it ends the run and is what the run raises, and the cache
    is left as it was. *)
Theorem X21_codec_error_propagates fs unmarshalers fuel self root filebases upwards
        evs out p e :
  loadCore fs unmarshalers fuel self root filebases upwards = (evs, out) ->
  List.In (Unmarshal p (Raise e)) evs ->
  (forall x, e <> IOError x) ->
  out = Some (self, Raise e) /\
  exists pre, evs = (pre ++ [CacheGet p; ReadFile p; Unmarshal p (Raise e)])%list.
Proof.
  intros Hrun Hin He.
  destruct (loadCore_parsed _ _ _ _ _ _ _ _ _ _ _ Hrun Hin)
    as (pre & um & raw & res & -> & Hcache & Hfs & Hum & Hprobe & ->).
  { intros x [= ->]. exact (He x eq_refl). }
  unfold probe in Hprobe. rewrite Hcache, Hfs, Hum in Hprobe.
  assert (res = Failed e) as ->.
  { destruct e; try (injection Hprobe as <-; reflexivity).
    exfalso. exact (He _ eq_refl). }
  split; [reflexivity|]. exists pre. reflexivity.
Qed.

Lemma X21_codec_error_propagates_witness :
  exists evs,
    loadProject disk_empty_name failing_unmarshalers "Coconut" 1 new_Loader "/proj"
    = (evs, Some (new_Loader, Raise (Exception "no JSON object could be decoded"))).
Proof.
  eexists.
  destruct (X21_codec_error_propagates disk_empty_name failing_unmarshalers 1 new_Loader
              "/proj" ["Coconut"] false _ _ "/proj/Coconut.json"
              (Exception "no JSON object could be decoded")
              ltac:(vm_compute; reflexivity) ltac:(simpl; auto 30)
              ltac:(discriminate)) as (Hout & _).
  rewrite <- Hout. vm_compute. reflexivity.
Defined.

Lemma probe_Hit fs self q unmarshal evs p :
  probe fs self q unmarshal = (evs, Hit p) -> cache self !! q = Some p.
Proof.
  unfold probe. destruct (cache self !! q); [now intros [= _ <-]|].
  destruct (fs q) as [raw|]; [|discriminate].
  destruct (unmarshal raw) as [d|e];
    [destruct (pack.d_name d) as [n|]; [destruct (truthy n)|] | destruct e];
    discriminate.
Qed.

Lemma probe_Loaded fs self q unmarshal evs p q' :
  probe fs self q unmarshal = (evs, Loaded p q') -> q' = q /\ cache self !! q = None.
Proof.
  unfold probe. destruct (cache self !! q); [discriminate|].
  destruct (fs q) as [raw|]; [|discriminate].
  destruct (unmarshal raw) as [d|e];
    [destruct (pack.d_name d) as [n|]; [destruct (truthy n)|] | destruct e];
    try discriminate.
  intros [= _ _ <-]. split; reflexivity.
Qed.

(** X22: a run of the resolver that returns only ever adds to the cache:
    every entry that was there is still there, unchanged; when it raises,
    the loader is left exactly as it was; and the package it returns is in
    the cache afterwards. *)
Theorem X22_cache_only_grows fs unmarshalers fuel self root filebases upwards
        evs self' r :
  loadCore fs unmarshalers fuel self root filebases upwards = (evs, Some (self', r)) ->
  cache self ⊆ cache self' /\
  match r with
  | Ok p => exists q, cache self' !! q = Some p
  | Raise _ => self' = self
  end.
Proof.
  intros Hrun. apply loadCore_shape in Hrun.
  inversion Hrun as [|? ? Hall He|pre last_ q um res Hall Hprobe Hne Hevs Hout]; subst.
  - split; reflexivity.
  - destruct res as [p|p q'| |e]; cbn [finish] in Hout; injection Hout as <- <-.
    + split; [reflexivity|]. exists q. eapply probe_Hit. exact Hprobe.
    + apply probe_Loaded in Hprobe as [-> Hmiss]. cbn [cache]. split.
      * now apply insert_subseteq.
      * exists q. apply lookup_insert_eq.
    + congruence.
    + split; reflexivity.
Qed.

Lemma X22_cache_only_grows_witness :
  exists evs self' p,
    loadProject Samples.disk Samples.toy_unmarshalers "Coconut" 1 new_Loader "/proj"
    = (evs, Some (self', Ok p)) /\
    cache new_Loader ⊆ cache self' /\
    exists q, cache self' !! q = Some p.
Proof.
  eexists _, _, _. split; [vm_compute; reflexivity|].
  eapply (X22_cache_only_grows Samples.disk Samples.toy_unmarshalers 1 new_Loader "/proj"
            ["Coconut"] false _ _ (Ok _)).
  vm_compute. reflexivity.
Defined.

(** X23: without the upward search, as in project mode, the resolver makes
    one pass over the candidates of the root directory and returns: one
    iteration always suffices, and more fuel changes nothing. *)
Theorem X23_project_mode_one_pass fs unmarshalers proj_base fuel self root :
  is_Some (snd (loadProject fs unmarshalers proj_base 1 self root)) /\
  loadProject fs unmarshalers proj_base (S fuel) self root
  = loadProject fs unmarshalers proj_base 1 self root.
Proof.
  unfold loadProject, loadCore. cbn [loadCore_from].
  destruct (probe_bases fs unmarshalers self (posixpath.normpath root) [proj_base] None)
    as [[evs base] [p|p q| |e]]; split; eauto.
Qed.

(** Probing the extensions of a base name none of whose candidates is
    cached or on disk. *)
Lemma probe_exts_all_absent fs self base exts :
  Forall (fun q => cache self !! q = None /\ fs q = None)
    (map (fun ext => base ++ ext) (map fst exts)) ->
  probe_exts fs self base exts
  = (absent_trace (map (fun ext => base ++ ext) (map fst exts)), Absent).
Proof.
  induction exts as [|[ext unmarshal] exts IH]; cbn [map fst]; [reflexivity|].
  intros Hall. apply Forall_cons in Hall as [[Hcache Hfs] Hall].
  cbn [probe_exts]. unfold probe. rewrite Hcache, Hfs, (IH Hall). reflexivity.
Qed.

(** Probing a directory none of whose candidates is cached or on disk: every
    candidate is looked up and tried in order, and [base] ends as the
    candidate of the last base name. *)
Lemma probe_bases_all_absent fs unmarshalers self search filebases :
  forall base,
    Forall (fun q => cache self !! q = None /\ fs q = None)
      (candidates search filebases (map fst unmarshalers)) ->
    probe_bases fs unmarshalers self search filebases base
    = (absent_trace (candidates search filebases (map fst unmarshalers)),
       fold_left (fun _ filebase => Some (posixpath.join search filebase)) filebases base,
       Absent).
Proof.
  induction filebases as [|filebase filebases IH]; intros base; [reflexivity|].
  unfold candidates. cbn [flat_map]. fold (candidates search filebases (map fst unmarshalers)).
  intros Hall. apply Forall_app in Hall as [Hhere Hrest].
  cbn [probe_bases fold_left].
  rewrite (probe_exts_all_absent _ _ _ _ Hhere), (IH _ Hrest).
  unfold absent_trace. rewrite flat_map_app. reflexivity.
Qed.

(** X24: in project mode, when no candidate of the root directory is cached
    or on disk, the resolver looks each one up and tries to open it, in
    order, and fails with the "No package found" error that names the root
    as it was given; no parent directory is searched and the loader is left
    as it was. *)
Theorem X24_project_not_found fs unmarshalers proj_base fuel self root :
  Forall (fun q => cache self !! q = None /\ fs q = None)
    (candidates (posixpath.normpath root) [proj_base] (map fst unmarshalers)) ->
  loadProject fs unmarshalers proj_base (S fuel) self root
  = (absent_trace (candidates (posixpath.normpath root) [proj_base] (map fst unmarshalers)),
     Some (self, Raise (no_package_found root))).
Proof.
  intros Hall. unfold loadProject, loadCore. cbn [loadCore_from].
  rewrite (probe_bases_all_absent _ _ _ _ _ None Hall). reflexivity.
Qed.

Lemma X24_project_not_found_witness :
  loadProject Samples.disk Samples.toy_unmarshalers "Coconut" 1 new_Loader "/proj/sub/"
  = ([CacheGet "/proj/sub/Coconut.json"; OpenFailed "/proj/sub/Coconut.json";
      CacheGet "/proj/sub/Coconut.yaml"; OpenFailed "/proj/sub/Coconut.yaml"],
     Some (new_Loader, Raise (no_package_found "/proj/sub/"))).
Proof.
  apply (X24_project_not_found Samples.disk Samples.toy_unmarshalers "Coconut" 0
           new_Loader "/proj/sub/").
  repeat constructor.
Defined.

(** X25: in dependency mode, when no candidate of the directory searched is
    cached or on disk, and the last candidate's base path is not ["/"], the
    resolver goes on in the parent directory: the run is the failed probes
    of this directory followed by the run from the parent. *)
Theorem X25_dependency_walks_up fs unmarshalers project_base package_base fuel self
        root search :
  Forall (fun q => cache self !! q = None /\ fs q = None)
    (candidates search [project_base; package_base] (map fst unmarshalers)) ->
  String.eqb (posixpath.join search package_base) "/" = false ->
  let parent := posixpath.normpath (posixpath.join search "..") in
  let filebases := [project_base; package_base] in
  loadCore_from fs unmarshalers (S fuel) self root filebases true search
  = ((absent_trace (candidates search filebases (map fst unmarshalers))
      ++ fst (loadCore_from fs unmarshalers fuel self root filebases true parent))%list,
     snd (loadCore_from fs unmarshalers fuel self root filebases true parent)).
Proof.
  intros Hall Hbase. cbv zeta. cbn [loadCore_from].
  rewrite (probe_bases_all_absent _ _ _ _ _ None Hall). cbn [fold_left].
  rewrite Hbase.
  destruct (loadCore_from fs unmarshalers fuel self root _ true _). reflexivity.
Qed.

(** From [/proj/other], where there is no descriptor, the search moves to
    [/proj] and finds the project's descriptor there. *)
Lemma X25_dependency_walks_up_witness :
  snd (loadCore_from Samples.disk Samples.toy_unmarshalers 2 new_Loader "/proj/other"
         ["Coconut"; "Cocopack"] true "/proj/other")
  = snd (loadCore_from Samples.disk Samples.toy_unmarshalers 1 new_Loader "/proj/other"
           ["Coconut"; "Cocopack"] true "/proj") /\
  snd (loadDependency Samples.disk Samples.toy_unmarshalers "Coconut" "Cocopack" 2
         new_Loader "/proj/other")
  = Some (mkLoader {[ "/proj/Coconut.yaml" := Samples.proj_pkg ]}, Ok Samples.proj_pkg).
Proof.
  split; [|vm_compute; reflexivity].
  rewrite (X25_dependency_walks_up Samples.disk Samples.toy_unmarshalers
             "Coconut" "Cocopack" 1 new_Loader "/proj/other" "/proj/other").
  - reflexivity.
  - repeat constructor.
  - reflexivity.
Defined.

Lemma cache_gets_app evs evs' :
  cache_gets (evs ++ evs') = (cache_gets evs ++ cache_gets evs')%list.
Proof. unfold cache_gets. apply flat_map_app. Qed.

Lemma probe_cache_gets fs self q unmarshal :
  cache_gets (fst (probe fs self q unmarshal)) = [q].
Proof.
  unfold probe. destruct (cache self !! q); [reflexivity|].
  destruct (fs q) as [raw|]; [|reflexivity].
  destruct (unmarshal raw) as [d|e];
    [destruct (pack.d_name d) as [n|]; [destruct (truthy n)|] | destruct e];
    reflexivity.
Qed.

(** The extension loop looks the candidates of a base name up in order,
    all of them when it finds nothing. *)
Lemma probe_exts_cache_gets fs self base exts :
  exists rest,
    map (fun ext => base ++ ext) (map fst exts)
    = (cache_gets (fst (probe_exts fs self base exts)) ++ rest)%list /\
    (snd (probe_exts fs self base exts) = Absent -> rest = []).
Proof.
  induction exts as [|[ext unmarshal] exts IH]; cbn [map fst probe_exts].
  - exists []. split; reflexivity.
  - pose proof (probe_cache_gets fs self (base ++ ext) unmarshal) as Hget.
    destruct (probe fs self (base ++ ext) unmarshal) as [evs0 r0]. cbn [fst] in Hget.
    destruct r0;
      try (exists (map (fun ext => base ++ ext) (map fst exts));
           cbn [fst snd]; rewrite Hget; split; [reflexivity | discriminate]).
    destruct IH as (rest & Hrest & Habs).
    destruct (probe_exts fs self base exts) as [evs' r']. cbn [fst snd] in *.
    exists rest. rewrite cache_gets_app, Hget, Hrest. split; [reflexivity | exact Habs].
Qed.

Lemma probe_bases_cache_gets fs unmarshalers self search filebases :
  forall base,
    exists rest,
      candidates search filebases (map fst unmarshalers)
      = (cache_gets (fst (fst (probe_bases fs unmarshalers self search filebases base)))
         ++ rest)%list /\
      (snd (probe_bases fs unmarshalers self search filebases base) = Absent -> rest = []).
Proof.
  induction filebases as [|filebase filebases IH]; intros base.
  - exists []. split; reflexivity.
  - unfold candidates. cbn [flat_map probe_bases].
    fold (candidates search filebases (map fst unmarshalers)).
    destruct (probe_exts_cache_gets fs self (posixpath.join search filebase) unmarshalers)
      as (rest0 & Hhere & Habs0).
    destruct (probe_exts fs self (posixpath.join search filebase) unmarshalers)
      as [evs0 r0]. cbn [fst snd] in *.
    destruct r0;
      try (exists (rest0 ++ candidates search filebases (map fst unmarshalers))%list;
           cbn [fst snd]; rewrite Hhere, <- app_assoc; split; [reflexivity | discriminate]).
    destruct (IH (Some (posixpath.join search filebase))) as (rest & Hrest & Habs).
    destruct (probe_bases fs unmarshalers self search filebases _) as [[evs' b'] r'].
    cbn [fst snd] in *. exists rest.
    rewrite cache_gets_app, Hhere, (Habs0 eq_refl), app_nil_r, Hrest, app_assoc.
    split; [reflexivity | exact Habs].
Qed.

(** X26: without the upward search, the paths the resolver looks up in the
    cache are an initial part of the candidates of the root directory in
    their order (each base name in the order given, with the extensions in
    the order of the registry): no candidate is skipped, none is looked up
    twice, and none after the one that ends the search. *)
Theorem X26_candidates_probed_in_order fs unmarshalers fuel self root filebases :
  exists rest,
    candidates (posixpath.normpath root) filebases (map fst unmarshalers)
    = (cache_gets (fst (loadCore fs unmarshalers (S fuel) self root filebases false))
       ++ rest)%list.
Proof.
  unfold loadCore. cbn [loadCore_from].
  destruct (probe_bases_cache_gets fs unmarshalers self (posixpath.normpath root)
              filebases None) as (rest & Hrest & _).
  destruct (probe_bases fs unmarshalers self (posixpath.normpath root) filebases None)
    as [[evs base] r]. cbn [fst] in Hrest.
  exists rest. destruct r; exact Hrest.
Qed.

(** ** Functions as members *)

(** The loop over the top-level statements leaves alone the members whose
    name no function of the statements has. *)
Lemma transform_toplevel_other tokens body :
  forall members initstmts imports ctx ctx' members' initstmts' imports' k,
    transform_toplevel tokens body members initstmts imports ctx
    = (ctx', Ok (members', initstmts', imports')) ->
    ~ List.In k (def_names body) ->
    members' !! k = members !! k.
Proof.
  induction body as [|stmt body IH]; intros members initstmts imports ctx ctx'
    members' initstmts' imports' k Hrun Hk.
  - now inversion Hrun.
  - cbn [transform_toplevel] in Hrun.
    destruct stmt; unfold bindM in Hrun;
      match type of Hrun with
      | (let (_, _) := ?m ctx in _) = _ =>
          destruct (m ctx) as [c [x|e]] eqn:Hm; [|discriminate]
      end;
      try (eapply IH; [exact Hrun | exact Hk]).
    + (* ClassDef *)
      unfold transform_ClassDef, expr_in, not_yet_implemented in Hm. discriminate Hm.
    + (* FunctionDef *)
      assert (Hname : ast.member_name x = name).
      { unfold transform_FunctionDef, bindM, expr_in in Hm.
        destruct (transform_block_stmts _ _ _) as [c' [b|e]]; inversion Hm; subst.
        reflexivity. }
      cbn [def_names flat_map app] in Hk.
      erewrite IH; [|exact Hrun|intros Hin; apply Hk; now right].
      rewrite Hname. apply lookup_insert_ne. intros ->. apply Hk. now left.
Qed.

(** The loop over the top-level statements puts the last function of a
    name under that name. *)
Lemma transform_toplevel_def tokens pre name args fbody loc post :
  forall members initstmts imports ctx ctx' members' initstmts' imports',
    transform_toplevel tokens (pre ++ py_ast.FunctionDef name args fbody loc :: post)
      members initstmts imports ctx
    = (ctx', Ok (members', initstmts', imports')) ->
    ~ List.In name (def_names post) ->
    exists func,
      transform_FunctionDef tokens name args fbody loc ctx = (ctx, Ok func) /\
      members' !! name = Some func.
Proof.
  induction pre as [|stmt pre IH]; intros members initstmts imports ctx ctx'
    members' initstmts' imports' Hrun Hlast.
  - cbn [app transform_toplevel] in Hrun. unfold bindM in Hrun.
    rewrite transform_FunctionDef_run in Hrun.
    destruct (snd (transform_FunctionDef tokens name args fbody loc ctx))
      as [func_|e] eqn:Hf; [|discriminate].
    exists func_. split; [now rewrite transform_FunctionDef_run, Hf|].
    assert (Hname : ast.member_name func_ = name).
    { pose proof (transform_FunctionDef_run tokens name args fbody loc ctx) as Hfull.
      rewrite Hf in Hfull. unfold transform_FunctionDef, bindM, expr_in in Hfull.
      destruct (transform_block_stmts _ _ _) as [c [b|e]]; inversion Hfull; subst.
      reflexivity. }
    rewrite (transform_toplevel_other _ _ _ _ _ _ _ _ _ _ name Hrun Hlast), Hname.
    apply lookup_insert_eq.
  - cbn [app transform_toplevel] in Hrun.
    destruct stmt; unfold bindM in Hrun;
      match type of Hrun with
      | (let (_, _) := ?m ctx in _) = _ =>
          let H := fresh "Hctx" in
          assert (H : fst (m ctx) = ctx)
            by first [ apply keeps_transform_stmt
                     | apply keeps_transform_FunctionDef
                     | reflexivity ];
          destruct (m ctx) as [c [x|e]] eqn:Hm; [|discriminate];
          cbn [fst] in H; subst c
      end;
      (eapply IH; [exact Hrun | exact Hlast]).
Qed.

(** X27: each function defined at the top level of a produced module is a
    member under its name, and when several definitions share a name the
    last one is the member: for a definition after which no other function
    has its name, and whose name is neither the init nor the entrypoint
    name, the member of that name is the method this definition lowers
    to. *)
Theorem X27_last_definition_is_member tokens p name node ctx ctx' m
        pre fname args fbody loc post :
  transform_Module tokens p name node ctx = (ctx', Ok m) ->
  py_ast.body node = (pre ++ py_ast.FunctionDef fname args fbody loc :: post)%list ->
  forallb (fun n => negb (String.eqb n fname)) (def_names post) = true ->
  String.eqb fname (func_init tokens) = false ->
  String.eqb fname (func_entrypoint tokens) = false ->
  exists func,
    transform_FunctionDef tokens fname args fbody loc ctx = (ctx, Ok func) /\
    ast.members m !! fname = Some func.
Proof.
  intros Hrun Hbody Hlast Hinit Hentry.
  apply String.eqb_neq in Hinit, Hentry.
  assert (Hnot : ~ List.In fname (def_names post)).
  { intros Hin. rewrite forallb_forall in Hlast. specialize (Hlast _ Hin).
    rewrite String.eqb_refl in Hlast. discriminate. }
  unfold transform_Module, bindM, get_ctx, expr_in, ret in Hrun.
  rewrite Hbody in Hrun.
  destruct (transform_toplevel _ _ _ _ _ _) as [c [[[members initstmts] imports]|e]]
    eqn:Htop; [|discriminate].
  pose proof (transform_toplevel_run tokens
                (pre ++ py_ast.FunctionDef fname args fbody loc :: post)
                {[ var_modname := ast.ModuleProperty (ident ctx var_modname None)
                                    (type_token ctx (type_dynamic tokens) None) ]}
                [modname_init] [] ctx) as Hctx.
  rewrite Htop in Hctx. injection Hctx as ->.
  destruct (add_properties _ _ _ _) as [members'|e] eqn:Hprops; [|discriminate].
  injection Hrun as <- <-. cbn [ast.members].
  destruct (transform_toplevel_def _ _ _ _ _ _ _ _ _ _ _ _ _ _ _ Htop Hnot)
    as (func_ & Hfunc & Hlook).
  exists func_. split; [exact Hfunc|].
  apply add_properties_spec in Hprops as [Hkeep _]. apply Hkeep.
  rewrite lookup_insert_ne by congruence.
  destruct (0 <? length initstmts)%nat; [rewrite lookup_insert_ne by congruence|];
    exact Hlook.
Qed.

(** Of two definitions of [f], the member is the second. *)
Lemma X27_last_definition_is_member_witness :
  let second := py_ast.FunctionDef "f" Samples.args_a_b
                  [py_ast.Pass (Samples.at_ 4 4 8)] (Samples.at_ 3 0 8) in
  let body := [Samples.def_f; second] in
  exists ctx' m func,
    transform_Module coconut_tokens Samples.the_pkg "m" (py_ast.mkModule body)
      (Samples.ctx_of body) = (ctx', Ok m) /\
    ast.members m !! "f" = Some func /\
    match func with
    | ast.ModuleMethod _ (Some params) _ _ _ => length params = 2%nat
    | _ => False
    end.
Proof.
  cbv zeta. eexists _, _, _. split; [vm_compute; reflexivity|].
  destruct (X27_last_definition_is_member coconut_tokens Samples.the_pkg "m"
              (py_ast.mkModule
                 [Samples.def_f;
                  py_ast.FunctionDef "f" Samples.args_a_b
                    [py_ast.Pass (Samples.at_ 4 4 8)] (Samples.at_ 3 0 8)])
              (Samples.ctx_of
                 [Samples.def_f;
                  py_ast.FunctionDef "f" Samples.args_a_b
                    [py_ast.Pass (Samples.at_ 4 4 8)] (Samples.at_ 3 0 8)])
              _ _ [Samples.def_f] "f" Samples.args_a_b
              [py_ast.Pass (Samples.at_ 4 4 8)] (Samples.at_ 3 0 8) []
              ltac:(vm_compute; reflexivity) eq_refl eq_refl eq_refl eq_refl)
    as (func & Hfunc & Hlook).
  vm_compute in Hfunc. injection Hfunc as <-.
  split; [exact Hlook | reflexivity].
Defined.

(** ** Name constants and the name of a module *)

(** X28: a name constant that holds the object [None], [True] or [False] is
    not lowered: the handler compares the value with the strings [None],
    [True] and [False], no object equals a string, and the assertion at the
    end fires, naming the value.  Only a node whose value is one of those
    strings gives the null literal or a boolean literal. *)
Theorem X28_name_constant_objects_raise ctx loc :
  transform_expr ctx (py_ast.NameConstant py_ast.PyNone loc)
  = Raise (AssertionError "Unexpected name constant value: 'None'") /\
  transform_expr ctx (py_ast.NameConstant py_ast.PyTrue loc)
  = Raise (AssertionError "Unexpected name constant value: 'True'") /\
  transform_expr ctx (py_ast.NameConstant py_ast.PyFalse loc)
  = Raise (AssertionError "Unexpected name constant value: 'False'") /\
  transform_expr ctx (py_ast.NameConstant (py_ast.PyStr "None") loc)
  = Ok (ast.NullLiteral (loc_from ctx (Some loc))) /\
  transform_expr ctx (py_ast.NameConstant (py_ast.PyStr "True") loc)
  = Ok (ast.BoolLiteral true (loc_from ctx (Some loc))) /\
  transform_expr ctx (py_ast.NameConstant (py_ast.PyStr "False") loc)
  = Ok (ast.BoolLiteral false (loc_from ctx (Some loc))).
Proof. repeat split; reflexivity. Qed.




